(** * PowerManagementBoard: command dispatch, battery state machine, protocol gateway

    A shallow embedding of the coordination core of the board firmware:
    - [Command] (kind, task sub-code, optional owned payload);
    - [Battery]: [BatterySM] with its state table, [TransitionState] and
      [HandleCommand] (BatterySM.cpp / BatterySM.hpp);
    - [Tasks]: the [HandleCommand] dispatchers of BMSTask, TelemetryTask and
      FlightTask, and the start-up of FlightTask::Run;
    - [Gateway]: PMBProtocolTask's handlers of decoded command and control
      envelopes;
    - [Samples]: concrete machines, commands and envelopes;
    - [BatteryFacts], [TaskFacts], [GatewayFacts]: the properties.

    Stateful code is written in a small monad [M S A] that threads the object
    state [S], accumulates the trace of observable calls and may halt on a
    failed SOAR_ASSERT. *)

From Stdlib Require Import ZArith List Bool Lia Arith.
From Stdlib Require Import Init.Byte.
Import ListNotations.

(* ------------------------------------------------------------------------- *)
(** * Machine integers *)

(** Conversion to [uint16_t] (wrap-around modulo 2^16). *)
Definition to_uint16 (z : Z) : Z := (z mod 65536)%Z.

(* ------------------------------------------------------------------------- *)
(** * Command *)

(** GLOBAL_COMMANDS.  The enum is declared in Command.hpp, which is not part
    of the sources; the enumerators are those the sources switch on or
    construct, and [GLOBAL_COMMAND_other] stands for the remaining ones. *)
Inductive GLOBAL_COMMANDS : Type :=
| COMMAND_NONE
| TASK_SPECIFIC_COMMAND
| DATA_COMMAND
| CONTROL_ACTION
| REQUEST_COMMAND
| HEARTBEAT_COMMAND
| TELEMETRY_CHANGE_PERIOD
| GLOBAL_COMMAND_other (code : nat).

Definition GLOBAL_COMMANDS_eqb (a b : GLOBAL_COMMANDS) : bool :=
  match a, b with
  | COMMAND_NONE, COMMAND_NONE => true
  | TASK_SPECIFIC_COMMAND, TASK_SPECIFIC_COMMAND => true
  | DATA_COMMAND, DATA_COMMAND => true
  | CONTROL_ACTION, CONTROL_ACTION => true
  | REQUEST_COMMAND, REQUEST_COMMAND => true
  | HEARTBEAT_COMMAND, HEARTBEAT_COMMAND => true
  | TELEMETRY_CHANGE_PERIOD, TELEMETRY_CHANGE_PERIOD => true
  | GLOBAL_COMMAND_other m, GLOBAL_COMMAND_other n => Nat.eqb m n
  | _, _ => false
  end.

(** A [Command]: kind, 16-bit task sub-code and the payload block it owns
    ([None] is the null data pointer). *)
Record Command : Type := mkCommand {
  command : GLOBAL_COMMANDS;
  taskCommand : Z;
  data : option (list byte)
}.

(** [Command(GLOBAL_COMMANDS command, uint16_t taskCommand)]: the sub-code
    argument is converted to [uint16_t]; no payload. *)
Definition Command_new (c : GLOBAL_COMMANDS) (tc : Z) : Command :=
  {| command := c; taskCommand := to_uint16 tc; data := None |}.

Definition GetCommand (cm : Command) : GLOBAL_COMMANDS := command cm.
Definition GetTaskCommand (cm : Command) : Z := taskCommand cm.

(** Modelled from the spec: Command::CopyDataFromCommand (Command.cpp is not
    part of the sources) copies the owned payload out into a destination
    block of [size] bytes without transferring ownership.  The result is the
    block of bytes written to the destination. *)
Definition CopyDataFromCommand (cm : Command) (size : nat) : list byte :=
  match data cm with
  | Some payload => firstn size payload
  | None => []
  end.

(** Modelled from the spec: Command::Reset releases any owned payload and is
    idempotent. *)
Definition Command_Reset (cm : Command) : Command :=
  {| command := command cm; taskCommand := taskCommand cm; data := None |}.

(* ------------------------------------------------------------------------- *)
(** * Wire envelopes (fields the sources read or write) *)

(** Proto::Node.  The generated header is not part of the sources; a freshly
    constructed message holds the enum's zero value, [NODE_INVALID]. *)
Inductive Node : Type :=
| NODE_INVALID
| NODE_RCU
| NODE_DMB
| NODE_PMB
| NODE_other (id : nat).

Definition Node_eqb (a b : Node) : bool :=
  match a, b with
  | NODE_INVALID, NODE_INVALID => true
  | NODE_RCU, NODE_RCU => true
  | NODE_DMB, NODE_DMB => true
  | NODE_PMB, NODE_PMB => true
  | NODE_other m, NODE_other n => Nat.eqb m n
  | _, _ => false
  end.

(** Proto::MessageID tags handed to SendProtobufMessage. *)
Inductive MessageID : Type := MSG_COMMAND | MSG_CONTROL | MSG_TELEMETRY.

(** Proto::AckNack *)
Record AckNack : Type := mkAckNack {
  acking_msg_source : Node;
  acking_sequence_num : Z
}.

(** Proto::SystemControl::Command *)
Inductive SysCmd : Type :=
| SYS_FLASH_LOG_ENABLE
| SYS_FLASH_LOG_DISABLE
| SYS_RESET
| SYS_CRITICAL_FLASH_FULL_ERASE
| SYS_LOG_PERIOD_CHANGE
| SYS_other (code : nat).

(** Proto::SystemControl: sub-command and its 32-bit numeric parameter. *)
Record SystemControl : Type := mkSystemControl {
  sys_cmd : SysCmd;
  cmd_param : Z
}.

(** Proto::SystemState::State *)
Inductive SysStateKind : Type :=
| SYS_UNCAUGHT_RESET
| SYS_BOOTUP_COMPLETE
| SYS_NORMAL_OPERATION.

(** Proto::SystemState; [rocket_state] is the wire value of the mission
    phase. *)
Record ProtoSystemState : Type := mkProtoSystemState {
  sys_state_kind : SysStateKind;
  rocket_state : nat
}.

(** The one-of body of a Proto::ControlMessage: [has_hb], [has_ping], ...
    test which alternative is set. *)
Inductive ControlBody : Type :=
| body_none
| body_hb
| body_ping
| body_ack (a : AckNack)
| body_nack (a : AckNack)
| body_sys_state (s : ProtoSystemState)
| body_sys_ctrl (c : SystemControl).

Record ControlMessage : Type := mkControlMessage {
  ctl_source : Node;
  ctl_target : Node;
  source_sequence_num : Z;
  ctl_body : ControlBody
}.

(** A default-constructed Proto::ControlMessage. *)
Definition ControlMessage_default : ControlMessage :=
  {| ctl_source := NODE_INVALID; ctl_target := NODE_INVALID;
     source_sequence_num := 0%Z; ctl_body := body_none |}.

(** Proto::DmbCommand::Command *)
Inductive DmbCommandEnum : Type :=
| DMB_RSC_ANY_TO_ABORT
| DMB_other (code : nat).

(** Proto::CommandMessage; [pmb_command] is [None] when [has_pmb_command]
    is false. *)
Record CommandMessage : Type := mkCommandMessage {
  cmd_source : Node;
  cmd_target : Node;
  pmb_command : option DmbCommandEnum
}.

(* ------------------------------------------------------------------------- *)
(** * Observable calls *)

(** BatteryState, declared in BatterySM.hpp; an enum value is its number. *)
Definition BatteryState : Type := nat.

(** Task singletons reached through [X::Inst().SendCommand]. *)
Inductive TaskId : Type :=
| FlightTask_id
| WatchdogTask_id
| FlashTask_id
| TelemetryTask_id.

(** Calls whose bodies are outside the modelled code. *)
Inductive External : Type :=
| ExtCall (code : Z).

Inductive Event : Type :=
| EvOnEnter (id : BatteryState)               (* state->OnEnter() *)
| EvOnExit (id : BatteryState)                (* state->OnExit() *)
| EvHandleBMSData (id : BatteryState) (d : list byte)
| EvHandleChargerData (id : BatteryState) (d : list byte)
| EvHandleFuelGaugeData (id : BatteryState) (d : list byte)
| EvPrint                                     (* SOAR_PRINT(...) *)
| EvReset                                     (* cm.Reset() *)
| EvSendCommand (t : TaskId) (cm : Command)   (* T::Inst().SendCommand(cm) *)
| EvSendProtobufMessage (m : ControlMessage) (id : MessageID)
| EvNewRocketSM (startingState : Z) (enterStartingState : bool)
| EvExternal (e : External).

Definition is_hook (e : Event) : bool :=
  match e with
  | EvOnEnter _ | EvOnExit _ => true
  | _ => false
  end.

Definition is_reset (e : Event) : bool :=
  match e with
  | EvReset => true
  | _ => false
  end.

Definition count (p : Event -> bool) (tr : list Event) : nat :=
  length (filter p tr).

(* ------------------------------------------------------------------------- *)
(** * The execution monad *)

(** How a call ends: it returns, it halts the system on a failed
    SOAR_ASSERT, or it leaves defined behaviour (a null or out-of-bounds
    access). *)
Inductive Outcome (A : Type) : Type :=
| Ok (a : A)
| AssertFailed
| Undefined.

Arguments Ok {A} a.
Arguments AssertFailed {A}.
Arguments Undefined {A}.

(** A computation over object state [S]: result, new state and the calls
    made, in order. *)
Definition M (S A : Type) : Type := S -> Outcome (A * S * list Event).

Definition ret {S A : Type} (a : A) : M S A :=
  fun s => Ok (a, s, []).

Definition bind {S A B : Type} (c : M S A) (k : A -> M S B) : M S B :=
  fun s =>
    match c s with
    | Ok (a, s1, t1) =>
        match k a s1 with
        | Ok (b, s2, t2) => Ok (b, s2, t1 ++ t2)
        | AssertFailed => AssertFailed
        | Undefined => Undefined
        end
    | AssertFailed => AssertFailed
    | Undefined => Undefined
    end.

Declare Scope monad_scope.
Delimit Scope monad_scope with monad.
Notation "x <- c ;; k" := (bind c (fun x => k))
  (at level 61, c at next level, right associativity) : monad_scope.
Notation "c ;; k" := (bind c (fun _ => k))
  (at level 61, right associativity) : monad_scope.
Local Open Scope monad_scope.

Definition get {S : Type} : M S S := fun s => Ok (s, s, []).
Definition put {S : Type} (s' : S) : M S unit := fun _ => Ok (tt, s', []).
Definition emit {S : Type} (e : Event) : M S unit := fun s => Ok (tt, s, [e]).
Definition emits {S : Type} (es : list Event) : M S unit := fun s => Ok (tt, s, es).
Definition undefined {S A : Type} : M S A := fun _ => Undefined.

(** SOAR_ASSERT(expr): continues when [expr] holds, halts otherwise. *)
Definition SOAR_ASSERT {S : Type} (expr : bool) : M S unit :=
  fun s => if expr then Ok (tt, s, []) else AssertFailed.

(** SOAR_PRINT(...) *)
Definition SOAR_PRINT {S : Type} : M S unit := emit EvPrint.

(** Dereference of a pointer that may be null. *)
Definition deref {S A : Type} (p : option A) : M S A :=
  match p with
  | Some a => ret a
  | None => undefined
  end.

(** [for (i = first; i < first + count; i++) body(i)] *)
Fixpoint for_each {S : Type} (indices : list nat) (body : nat -> M S unit) : M S unit :=
  match indices with
  | [] => ret tt
  | i :: rest => body i ;; for_each rest body
  end.

(** [arr[i]] on a C array: reading past its end is undefined. *)
Definition index {S A : Type} (arr : list A) (i : nat) : M S A :=
  deref (nth_error arr i).

Definition is_null {A : Type} (p : option A) : bool :=
  match p with
  | Some _ => false
  | None => true
  end.

(* ------------------------------------------------------------------------- *)
(** * Declarations the sources use but do not contain *)

(** Task sub-codes, the sizes of the payload structs, the identifier
    [currentState] that the stub data handlers return, the RocketState
    enumerators and the boot-up cycle count: none is declared in the sources,
    so each is a parameter of the model. *)
Record Decls : Type := mkDecls {
  (* sub-codes of DATA_COMMAND *)
  BMS_UPDATE : Z;
  CHARGER_UPDATE : Z;
  FUEL_GAUGE_UPDATE : Z;
  (* sizeof(BMSData), sizeof(ChargerData), sizeof(FuelGaugeData) *)
  sizeof_BMSData : nat;
  sizeof_ChargerData : nat;
  sizeof_FuelGaugeData : nat;
  currentState : BatteryState;
  (* sub-codes sent or tested by the tasks and the gateway *)
  FT_REQUEST_TRANSMIT_STATE : Z;
  RSC_ANY_TO_ABORT : Z;
  RADIOHB_REQUEST : Z;
  ERASE_ALL_FLASH : Z;
  FLIGHT_TASK_BOOTUP_TELE_CYCLES : Z;
  (* enum RocketState *)
  RS_PRELAUNCH : Z;
  RS_ABORT : Z;
  RS_NONE : Z
}.

(* ------------------------------------------------------------------------- *)
(** * BatterySM.hpp / BatterySM.cpp *)

Module Battery.

Definition BS_IDLE : BatteryState := 0.
Definition BS_CHARGING : BatteryState := 1.
Definition BS_DISCHARGING : BatteryState := 2.
Definition BS_FAULT : BatteryState := 3.
(** Invalid state, must be last *)
Definition BS_NONE : BatteryState := 4.

(** The payload structs, as the block of bytes copied out of the Command. *)
Definition BMSData : Type := list byte.
Definition ChargerData : Type := list byte.
Definition FuelGaugeData : Type := list byte.

(** class BaseBatteryState: the state id and the virtual data handlers.
    OnEnter and OnExit have no body beyond returning the id; a call to them
    is recorded in the trace. *)
Record BaseBatteryState : Type := mkState {
  bsStateID : BatteryState;
  HandleBMSData : BMSData -> BatteryState;
  HandleChargerData : ChargerData -> BatteryState;
  HandleFuelGaugeData : FuelGaugeData -> BatteryState
}.

Definition GetStateID (s : BaseBatteryState) : BatteryState := bsStateID s.

(** class BatterySM: the table of state objects and the pointer to the
    current one ([None] is nullptr). *)
Record BatterySM : Type := mkSM {
  stateArray : list (option BaseBatteryState);
  bs_currentState : option BaseBatteryState
}.

Definition OnEnter (s : BaseBatteryState) : M BatterySM BatteryState :=
  emit (EvOnEnter (GetStateID s)) ;; ret (bsStateID s).

Definition OnExit (s : BaseBatteryState) : M BatterySM BatteryState :=
  emit (EvOnExit (GetStateID s)) ;; ret (bsStateID s).

Definition call_HandleBMSData (s : BaseBatteryState) (bms : BMSData) : M BatterySM BatteryState :=
  emit (EvHandleBMSData (GetStateID s) bms) ;; ret (HandleBMSData s bms).

Definition call_HandleChargerData (s : BaseBatteryState) (charger : ChargerData) : M BatterySM BatteryState :=
  emit (EvHandleChargerData (GetStateID s) charger) ;; ret (HandleChargerData s charger).

Definition call_HandleFuelGaugeData (s : BaseBatteryState) (fuel_gauge : FuelGaugeData) : M BatterySM BatteryState :=
  emit (EvHandleFuelGaugeData (GetStateID s) fuel_gauge) ;; ret (HandleFuelGaugeData s fuel_gauge).

Section Machine.

Variable D : Decls.

(** The four concrete states; every data handler is [return currentState;]. *)
Definition Idle : BaseBatteryState :=
  {| bsStateID := BS_IDLE;
     HandleBMSData := fun _ => currentState D;
     HandleChargerData := fun _ => currentState D;
     HandleFuelGaugeData := fun _ => currentState D |}.

Definition Charging : BaseBatteryState :=
  {| bsStateID := BS_CHARGING;
     HandleBMSData := fun _ => currentState D;
     HandleChargerData := fun _ => currentState D;
     HandleFuelGaugeData := fun _ => currentState D |}.

Definition Discharging : BaseBatteryState :=
  {| bsStateID := BS_DISCHARGING;
     HandleBMSData := fun _ => currentState D;
     HandleChargerData := fun _ => currentState D;
     HandleFuelGaugeData := fun _ => currentState D |}.

Definition Fault : BaseBatteryState :=
  {| bsStateID := BS_FAULT;
     HandleBMSData := fun _ => currentState D;
     HandleChargerData := fun _ => currentState D;
     HandleFuelGaugeData := fun _ => currentState D |}.

(** BatterySM::BatterySM, first part: "Setup the internal array of states.
    Setup in order of enum." *)
Definition setup_states : list (option BaseBatteryState) :=
  [Some Idle; Some Charging; Some Discharging; Some Fault].

(** One round of the verification loop of the constructor. *)
Definition verify_slot (i : nat) : M BatterySM unit :=
  sm <- get ;;
  p <- index (stateArray sm) i ;;
  SOAR_ASSERT (negb (is_null p)) ;;
  s <- deref p ;;
  SOAR_ASSERT (GetStateID s =? i).

(** BatterySM::BatterySM, from the verification loop on. *)
Definition construct (startingState : BatteryState) (enterStartingState : bool) : M BatterySM unit :=
  for_each (seq 0 BS_NONE) verify_slot ;;
  sm <- get ;;
  p <- index (stateArray sm) startingState ;;
  put {| stateArray := stateArray sm; bs_currentState := p |} ;;
  (if enterStartingState then (s <- deref p ;; OnEnter s ;; ret tt) else ret tt) ;;
  s <- deref p ;;
  SOAR_PRINT.

(** The constructor run on a given content of [stateArray]. *)
Definition BatterySM_on (table : list (option BaseBatteryState))
    (startingState : BatteryState) (enterStartingState : bool)
  : Outcome (BatterySM * list Event) :=
  match construct startingState enterStartingState
          {| stateArray := table; bs_currentState := None |} with
  | Ok (_, sm, tr) => Ok (sm, tr)
  | AssertFailed => AssertFailed
  | Undefined => Undefined
  end.

(** BatterySM::BatterySM(startingState, enterStartingState) *)
Definition BatterySM_new (startingState : BatteryState) (enterStartingState : bool)
  : Outcome (BatterySM * list Event) :=
  BatterySM_on setup_states startingState enterStartingState.

(** BatterySM::TransitionState *)
Definition TransitionState (nextState : BatteryState) : M BatterySM BatteryState :=
  sm <- get ;;
  cur <- deref (bs_currentState sm) ;;
  if nextState =? GetStateID cur then ret (GetStateID cur)
  else if BS_NONE <=? nextState then ret (GetStateID cur)
  else
    let previousState := GetStateID cur in
    OnExit cur ;;
    p <- index (stateArray sm) nextState ;;
    put {| stateArray := stateArray sm; bs_currentState := p |} ;;
    SOAR_ASSERT (negb (is_null p)) ;;
    now <- deref p ;;
    OnEnter now ;;
    SOAR_PRINT ;;
    ret (GetStateID now).

(** BatterySM::HandleCommand *)
Definition HandleCommand (cm : Command) : M BatterySM unit :=
  sm <- get ;;
  SOAR_ASSERT (negb (is_null (bs_currentState sm))) ;;
  cur <- deref (bs_currentState sm) ;;
  match GetCommand cm with
  | DATA_COMMAND =>
      let nextState := GetStateID cur in
      nextState <-
        (if (GetTaskCommand cm =? BMS_UPDATE D)%Z then
           let bms := CopyDataFromCommand cm (sizeof_BMSData D) in
           call_HandleBMSData cur bms
         else if (GetTaskCommand cm =? CHARGER_UPDATE D)%Z then
           let charger := CopyDataFromCommand cm (sizeof_ChargerData D) in
           call_HandleChargerData cur charger
         else if (GetTaskCommand cm =? FUEL_GAUGE_UPDATE D)%Z then
           let fuel_gauge := CopyDataFromCommand cm (sizeof_FuelGaugeData D) in
           call_HandleFuelGaugeData cur fuel_gauge
         else
           SOAR_PRINT ;; ret nextState) ;;
      ret tt
  | _ => ret tt
  end.

End Machine.

(** The state table is well formed: every slot of [0, BS_NONE) holds a state
    object whose id is the slot. *)
Definition table_ok (table : list (option BaseBatteryState)) : Prop :=
  length table = BS_NONE /\
  forall i, i < BS_NONE ->
    exists s, nth_error table i = Some (Some s) /\ GetStateID s = i.

End Battery.

(* ------------------------------------------------------------------------- *)
(** * BMSTask.cpp, TelemetryTask.cpp, FlightTask.cpp *)

Module Tasks.

(** [cm.Reset()] on the Command passed by reference: the call is recorded
    and the Command after it is returned. *)
Definition Reset {S : Type} (cm : Command) : M S Command :=
  emit EvReset ;; ret (Command_Reset cm).

(** ** BMSTask *)

Section BMS.

(** BMSTask::HandleRequestCommand(uint16_t taskCommand) is declared but not
    defined in the sources.  It receives the sub-code only, never the
    Command, so its effect is a list of calls outside the model. *)
Variable HandleRequestCommand : Z -> list External.

(** BMSTask::HandleCommand; the task object has no field the handler
    touches. *)
Definition BMSTask_HandleCommand (cm : Command) : M unit Command :=
  match GetCommand cm with
  | REQUEST_COMMAND =>
      emits (map EvExternal (HandleRequestCommand (GetTaskCommand cm)))
  | TASK_SPECIFIC_COMMAND => ret tt
  | _ => SOAR_PRINT
  end ;;
  Reset cm.

End BMS.

(** ** TelemetryTask *)

Record TelemetryTask : Type := mkTelemetryTask {
  loggingDelayMs : Z;
  numNonFlashLogs_ : Z;
  numNonControlLogs_ : Z
}.

(** TELEMETRY_DEFAULT_LOGGING_RATE_MS (SystemDefines.hpp) *)
Definition TELEMETRY_DEFAULT_LOGGING_RATE_MS : Z := 100.

(** TelemetryTask::TelemetryTask *)
Definition TelemetryTask_new : TelemetryTask :=
  {| loggingDelayMs := TELEMETRY_DEFAULT_LOGGING_RATE_MS;
     numNonFlashLogs_ := 0;
     numNonControlLogs_ := 0 |}.

(** TelemetryTask::HandleCommand *)
Definition TelemetryTask_HandleCommand (cm : Command) : M TelemetryTask Command :=
  match GetCommand cm with
  | TELEMETRY_CHANGE_PERIOD =>
      t <- get ;;
      put {| loggingDelayMs := to_uint16 (GetTaskCommand cm);
             numNonFlashLogs_ := numNonFlashLogs_ t;
             numNonControlLogs_ := numNonControlLogs_ t |}
  | _ => SOAR_PRINT
  end ;;
  Reset cm.

(** ** FlightTask *)

(** The persisted system-state record: the mission phase it holds. *)
Record SystemState : Type := mkSystemState {
  rocketState : Z
}.

Section Flight.

Variable D : Decls.

(** class RocketSM is not part of the sources: its type, its constructor,
    its HandleCommand (which receives the Command by reference) and
    GetRocketStateAsProto are parameters. *)
Variable RocketSM : Type.
Variable RocketSM_new : Z -> bool -> RocketSM.
Variable RocketSM_HandleCommand : Command -> M RocketSM Command.
Variable GetRocketStateAsProto : RocketSM -> nat.

Record FlightTask : Type := mkFlightTask {
  rsm_ : option RocketSM;
  firstStateSent_ : Z
}.

(** FlightTask::FlightTask *)
Definition FlightTask_new : FlightTask :=
  {| rsm_ := None; firstStateSent_ := 0 |}.

(** [rsm_ = new RocketSM(startingState, enterStartingState)] *)
Definition new_RocketSM (startingState : Z) (enterStartingState : bool) : M FlightTask unit :=
  ft <- get ;;
  emit (EvNewRocketSM startingState enterStartingState) ;;
  put {| rsm_ := Some (RocketSM_new startingState enterStartingState);
         firstStateSent_ := firstStateSent_ ft |}.

(** FlightTask::Run up to its command loop.  [stored] is what
    SystemStorage::Inst().Read(sysState) delivers: [None] when it reports
    failure, the record read otherwise. *)
Definition Run_startup (stored : option SystemState) : M FlightTask unit :=
  match stored with
  | Some sysState =>
      let sysState :=
        if ((rocketState sysState >=? RS_NONE D) || (rocketState sysState <? RS_PRELAUNCH D))%Z
        then {| rocketState := RS_ABORT D |}
        else sysState in
      new_RocketSM (rocketState sysState) true
  | None =>
      new_RocketSM (RS_ABORT D) true
  end.

(** FlightTask::SendRocketState *)
Definition SendRocketState : M FlightTask unit :=
  ft <- get ;;
  let msg := {| ctl_source := NODE_PMB; ctl_target := NODE_RCU;
                source_sequence_num := 0%Z; ctl_body := body_none |} in
  kind <-
    (if (firstStateSent_ ft <? FLIGHT_TASK_BOOTUP_TELE_CYCLES D)%Z then
       let kind := if (firstStateSent_ ft <? 1)%Z
                   then SYS_UNCAUGHT_RESET else SYS_BOOTUP_COMPLETE in
       put {| rsm_ := rsm_ ft; firstStateSent_ := (firstStateSent_ ft + 1)%Z |} ;;
       ret kind
     else ret SYS_NORMAL_OPERATION) ;;
  rsm <- deref (rsm_ ft) ;;
  let stateMsg := {| sys_state_kind := kind;
                     rocket_state := GetRocketStateAsProto rsm |} in
  let msg := {| ctl_source := ctl_source msg; ctl_target := ctl_target msg;
                source_sequence_num := source_sequence_num msg;
                ctl_body := body_sys_state stateMsg |} in
  emit (EvSendProtobufMessage msg MSG_CONTROL).

(** [rsm_->HandleCommand(cm)] *)
Definition rsm_HandleCommand (cm : Command) : M FlightTask Command :=
  fun ft =>
    match rsm_ ft with
    | None => Undefined
    | Some rsm =>
        match RocketSM_HandleCommand cm rsm with
        | Ok (cm', rsm', tr) =>
            Ok (cm', {| rsm_ := Some rsm'; firstStateSent_ := firstStateSent_ ft |}, tr)
        | AssertFailed => AssertFailed
        | Undefined => Undefined
        end
    end.

(** The test of FlightTask::HandleCommand: a request for the task itself. *)
Definition is_transmit_state_request (cm : Command) : bool :=
  GLOBAL_COMMANDS_eqb (GetCommand cm) REQUEST_COMMAND &&
  (GetTaskCommand cm =? FT_REQUEST_TRANSMIT_STATE D)%Z.

(** FlightTask::HandleCommand *)
Definition FlightTask_HandleCommand (cm : Command) : M FlightTask Command :=
  cm <- (if is_transmit_state_request cm
         then SendRocketState ;; ret cm
         else rsm_HandleCommand cm) ;;
  Reset cm.

End Flight.

Arguments mkFlightTask {RocketSM} rsm_ firstStateSent_.
Arguments rsm_ {RocketSM} f.
Arguments firstStateSent_ {RocketSM} f.
Arguments FlightTask_new {RocketSM}.
Arguments new_RocketSM {RocketSM} RocketSM_new startingState enterStartingState.
Arguments Run_startup D {RocketSM} RocketSM_new stored.
Arguments SendRocketState D {RocketSM} GetRocketStateAsProto.
Arguments rsm_HandleCommand {RocketSM} RocketSM_HandleCommand cm.
Arguments FlightTask_HandleCommand D {RocketSM} RocketSM_HandleCommand GetRocketStateAsProto cm.

End Tasks.

(* ------------------------------------------------------------------------- *)
(** * PMBProtocolTask *)

Module Gateway.

Section Handlers.

Variable D : Decls.

(** PMBProtocolTask::SendProtobufMessage(writeBuf, msgId), where [writeBuf]
    holds the serialised [m]. *)
Definition SendProtobufMessage (m : ControlMessage) (msgId : MessageID) : M unit unit :=
  emit (EvSendProtobufMessage m msgId).

(** [T::Inst().SendCommand(cm)] *)
Definition SendCommand (t : TaskId) (cm : Command) : M unit unit :=
  emit (EvSendCommand t cm).

(** PMBProtocolTask::HandleProtobufCommandMessage, on the message
    deserialised from the read buffer. *)
Definition HandleProtobufCommandMessage (msg : CommandMessage) : M unit unit :=
  if negb (Node_eqb (cmd_source msg) NODE_RCU) || negb (Node_eqb (cmd_target msg) NODE_PMB)
  then ret tt
  else
    match pmb_command msg with
    | None => ret tt
    | Some DMB_RSC_ANY_TO_ABORT =>
        SendCommand FlightTask_id (Command_new CONTROL_ACTION (to_uint16 (RSC_ANY_TO_ABORT D)))
    | Some _ => ret tt
    end.

(** PMBProtocolTask::HandleProtobufControlMesssage, on the message
    deserialised from the read buffer. *)
Definition HandleProtobufControlMesssage (msg : ControlMessage) : M unit unit :=
  if negb (Node_eqb (ctl_source msg) NODE_RCU) || negb (Node_eqb (ctl_target msg) NODE_PMB)
  then ret tt
  else
    match ctl_body msg with
    | body_hb =>
        SendCommand WatchdogTask_id (Command_new HEARTBEAT_COMMAND (to_uint16 (RADIOHB_REQUEST D)))
    | body_ping =>
        let ackResponse := ControlMessage_default in
        let ack := {| acking_msg_source := ctl_source msg;
                      acking_sequence_num := source_sequence_num msg |} in
        let ackResponse :=
          {| ctl_source := ctl_source ackResponse;
             ctl_target := ctl_target ackResponse;
             source_sequence_num := source_sequence_num ackResponse;
             ctl_body := body_ack ack |} in
        SendProtobufMessage ackResponse MSG_CONTROL
    | body_sys_ctrl sys_ctrl =>
        match sys_cmd sys_ctrl with
        | SYS_FLASH_LOG_ENABLE => ret tt
        | SYS_FLASH_LOG_DISABLE => ret tt
        | SYS_RESET => SOAR_ASSERT false
        | SYS_CRITICAL_FLASH_FULL_ERASE =>
            SendCommand FlashTask_id (Command_new TASK_SPECIFIC_COMMAND (ERASE_ALL_FLASH D))
        | SYS_LOG_PERIOD_CHANGE =>
            let paramMs := cmd_param sys_ctrl in
            let paramMs := if (paramMs >? 0xFFFF)%Z then 0xFFFE%Z else paramMs in
            SendCommand TelemetryTask_id (Command_new TELEMETRY_CHANGE_PERIOD paramMs)
        | SYS_other _ => ret tt
        end
    | _ => ret tt
    end.

(** PMBProtocolTask::HandleProtobufTelemetryMessage: empty body. *)
Definition HandleProtobufTelemetryMessage : M unit unit := ret tt.

End Handlers.

End Gateway.

(* ------------------------------------------------------------------------- *)
(** * Concrete values for the declarations, machines, commands and envelopes *)

Module Samples.
Import Battery.

Definition sample_decls : Decls :=
  {| BMS_UPDATE := 0; CHARGER_UPDATE := 1; FUEL_GAUGE_UPDATE := 2;
     sizeof_BMSData := 4; sizeof_ChargerData := 4; sizeof_FuelGaugeData := 4;
     currentState := BS_IDLE;
     FT_REQUEST_TRANSMIT_STATE := 0; RSC_ANY_TO_ABORT := 9;
     RADIOHB_REQUEST := 0; ERASE_ALL_FLASH := 1;
     FLIGHT_TASK_BOOTUP_TELE_CYCLES := 5;
     RS_PRELAUNCH := 0; RS_ABORT := 9; RS_NONE := 11 |}.

(** The machine the constructor builds when started in Idle. *)
Definition idle_machine : BatterySM :=
  {| stateArray := setup_states sample_decls;
     bs_currentState := Some (Idle sample_decls) |}.

(** An Idle state whose BMS handler asks for the Fault state. *)
Definition Idle_reporting_fault : BaseBatteryState :=
  {| bsStateID := BS_IDLE;
     HandleBMSData := fun _ => BS_FAULT;
     HandleChargerData := fun _ => BS_IDLE;
     HandleFuelGaugeData := fun _ => BS_IDLE |}.

Definition fault_prone_machine : BatterySM :=
  {| stateArray := [Some Idle_reporting_fault; Some (Charging sample_decls);
                    Some (Discharging sample_decls); Some (Fault sample_decls)];
     bs_currentState := Some Idle_reporting_fault |}.

Definition bms_update : Command :=
  {| command := DATA_COMMAND; taskCommand := BMS_UPDATE sample_decls;
     data := Some [x01; x02; x03; x04] |}.

(** The battery machine of the sources, used as the state machine of the
    flight task: its HandleCommand reads the Command and leaves it as it
    is. *)
Definition battery_as_rsm (cm : Command) : M BatterySM Command :=
  HandleCommand sample_decls cm ;; ret cm.

Definition sample_flight_task : Tasks.FlightTask BatterySM :=
  {| Tasks.rsm_ := Some idle_machine; Tasks.firstStateSent_ := 0 |}.

Definition unsupported_command : Command :=
  {| command := GLOBAL_COMMAND_other 40; taskCommand := 3; data := Some [x2a] |}.

Definition ping_42 : ControlMessage :=
  {| ctl_source := NODE_RCU; ctl_target := NODE_PMB;
     source_sequence_num := 42; ctl_body := body_ping |}.

Definition period_change (p : Z) : ControlMessage :=
  {| ctl_source := NODE_RCU; ctl_target := NODE_PMB;
     source_sequence_num := 7;
     ctl_body := body_sys_ctrl {| sys_cmd := SYS_LOG_PERIOD_CHANGE; cmd_param := p |} |}.

Definition abort_from (source target : Node) : CommandMessage :=
  {| cmd_source := source; cmd_target := target;
     pmb_command := Some DMB_RSC_ANY_TO_ABORT |}.

End Samples.

(* ------------------------------------------------------------------------- *)
(** * BatterySM.cpp: the remaining members, and runs of the machine *)

From Stdlib Require String.

Module BatteryNames.
Import Stdlib.Strings.String.

(** BaseBatteryState::StateToString *)
Definition StateToString (stateId : BatteryState) : string :=
  match stateId with
  | 0 => "Idle"
  | 1 => "Charging"
  | 2 => "Discharging"
  | 3 => "Fault"
  | 4 => "None"
  | _ => "WARNING: Invalid"
  end%string.

End BatteryNames.

Module BatteryMore.
Import Battery.

(** Proto::BatteryState, as BatterySM::GetBatteryStateAsProto names its
    enumerators. *)
Inductive ProtoBatteryState : Type :=
| Proto_BS_IDLE
| Proto_BS_CHARGING
| Proto_BS_DISCHHARGING
| Proto_BS_FAULT
| Proto_BS_NONE.

(** BatterySM::GetBatteryStateAsProto *)
Definition GetBatteryStateAsProto : M BatterySM ProtoBatteryState :=
  sm <- get ;;
  cur <- deref (bs_currentState sm) ;;
  ret (match GetStateID cur with
       | 0 => Proto_BS_IDLE
       | 1 => Proto_BS_CHARGING
       | 2 => Proto_BS_DISCHHARGING
       | 3 => Proto_BS_FAULT
       | _ => Proto_BS_NONE
       end).

(** The id of the current state, when there is one. *)
Definition current_id (sm : BatterySM) : option BatteryState :=
  option_map GetStateID (bs_currentState sm).

(** A machine as the constructor leaves it: a well-formed table, and a
    current-state pointer that points into the table. *)
Definition machine_ok (sm : BatterySM) : Prop :=
  table_ok (stateArray sm) /\
  exists cur,
    bs_currentState sm = Some cur /\
    nth_error (stateArray sm) (GetStateID cur) = Some (Some cur).

(** Successive calls of TransitionState, one per requested target. *)
Fixpoint TransitionStates (targets : list BatteryState) : M BatterySM unit :=
  match targets with
  | [] => ret tt
  | next :: rest => TransitionState next ;; TransitionStates rest
  end.

(** The state a run of requests ends in: the last target below BS_NONE, or
    the state it started in. *)
Definition last_valid (start : BatteryState) (targets : list BatteryState) : BatteryState :=
  fold_left (fun cur next => if next <? BS_NONE then next else cur) targets start.

Definition is_on_enter (e : Event) : bool :=
  match e with
  | EvOnEnter _ => true
  | _ => false
  end.

Definition is_on_exit (e : Event) : bool :=
  match e with
  | EvOnExit _ => true
  | _ => false
  end.

Definition is_data_handler (e : Event) : bool :=
  match e with
  | EvHandleBMSData _ _ | EvHandleChargerData _ _ | EvHandleFuelGaugeData _ _ => true
  | _ => false
  end.

End BatteryMore.

(* ------------------------------------------------------------------------- *)
(** * TelemetryTask.cpp, FlightTask.cpp: the command loop and repeated reports *)

Module TasksMore.
Import Tasks.

(** The command loop of TelemetryTask::Run,
    [while (qEvtQueue->Receive(cm)) HandleCommand(cm);], on a queue that
    holds [queue], oldest first, and receives nothing in the meantime. *)
Fixpoint drain_queue (queue : list Command) : M TelemetryTask unit :=
  match queue with
  | [] => ret tt
  | cm :: rest => TelemetryTask_HandleCommand cm ;; drain_queue rest
  end.

(** The logging delay after the queue is drained: the sub-code of the last
    TELEMETRY_CHANGE_PERIOD in it, the delay before when there is none. *)
Definition last_period (start : Z) (queue : list Command) : Z :=
  fold_left
    (fun delay cm =>
       match GetCommand cm with
       | TELEMETRY_CHANGE_PERIOD => to_uint16 (GetTaskCommand cm)
       | _ => delay
       end)
    queue start.

Definition is_print (e : Event) : bool :=
  match e with
  | EvPrint => true
  | _ => false
  end.

Definition is_period_change (cm : Command) : bool :=
  GLOBAL_COMMANDS_eqb (GetCommand cm) TELEMETRY_CHANGE_PERIOD.



(** A state report as SendRocketState addresses it. *)
Definition state_report (kind : SysStateKind) (rocket : nat) : ControlMessage :=
  {| ctl_source := NODE_PMB; ctl_target := NODE_RCU;
     source_sequence_num := 0%Z;
     ctl_body := body_sys_state {| sys_state_kind := kind; rocket_state := rocket |} |}.

End TasksMore.

(* ------------------------------------------------------------------------- *)
(** * DebugTask.cpp *)

(** The command words HandleDebugMessage compares the message with. *)
Module DebugWords.
Import Stdlib.Strings.String.

Definition sysreset : list byte := list_byte_of_string "sysreset".
Definition sysinfo : list byte := list_byte_of_string "sysinfo".
Definition blinkled : list byte := list_byte_of_string "blinkled".

End DebugWords.

Module Debug.

(** DEBUG_RX_BUFFER_SZ_BYTES and EVENT_DEBUG_RX_COMPLETE are declared in
    DebugTask.hpp, which is not part of the sources: both are parameters. *)
Record DebugDecls : Type := mkDebugDecls {
  DEBUG_RX_BUFFER_SZ_BYTES : nat;
  EVENT_DEBUG_RX_COMPLETE : Z
}.

(** The members of DebugTask the receive path uses.  [debugBuffer] is the
    array itself: its length is sizeof(debugBuffer). *)
Record DebugTask : Type := mkDebugTask {
  debugBuffer : list byte;
  debugMsgIdx : nat;
  isDebugMsgReady : bool;
  debugRxChar : byte
}.

(** The calls the task makes into the queue, the UART driver, the print
    path and the GPIO layer. *)
Inductive DebugCall : Type :=
| CallSendFromISR (cm : Command)   (* qEvtQueue->SendFromISR(cm) *)
| CallReceiveIT                    (* kUart_->ReceiveIT(&debugRxChar, this) *)
| CallPrint                        (* SOAR_PRINT(...) *)
| CallLed1On                       (* GPIO::LED1::On() *)
| CallReset.                       (* cm.Reset() *)

(** DebugTask::DebugTask: the buffer zeroed over its whole size, no message
    in progress.  [debugRxChar] is not initialised: [rx] is what it holds. *)
Definition DebugTask_new (size : nat) (rx : byte) : DebugTask :=
  {| debugBuffer := repeat x00 size;
     debugMsgIdx := 0;
     isDebugMsgReady := false;
     debugRxChar := rx |}.

(** [buf[i] = b]: [None] when [i] is past the end of the array. *)
Definition store (buf : list byte) (i : nat) (b : byte) : option (list byte) :=
  if i <? length buf
  then Some (firstn i buf ++ b :: skipn (S i) buf)
  else None.

Section Task.

Variable D : DebugDecls.

(** DebugTask::InterruptRxData.  [sendOk] is what SendFromISR returns when
    it is called; the [errors] argument is not read. *)
Definition InterruptRxData (sendOk : bool) (t : DebugTask)
  : Outcome (DebugTask * list DebugCall) :=
  if negb (isDebugMsgReady t) then
    if Byte.eqb (debugRxChar t) x0d || (debugMsgIdx t =? DEBUG_RX_BUFFER_SZ_BYTES D) then
      match store (debugBuffer t) (debugMsgIdx t) x00 with
      | None => Undefined
      | Some buf =>
          let cm := Command_new DATA_COMMAND (EVENT_DEBUG_RX_COMPLETE D) in
          let t' :=
            if sendOk
            then {| debugBuffer := buf; debugMsgIdx := S (debugMsgIdx t);
                    isDebugMsgReady := true; debugRxChar := debugRxChar t |}
            else {| debugBuffer := buf; debugMsgIdx := 0;
                    isDebugMsgReady := false; debugRxChar := debugRxChar t |} in
          Ok (t', [CallSendFromISR cm; CallReceiveIT])
      end
    else
      match store (debugBuffer t) (debugMsgIdx t) (debugRxChar t) with
      | None => Undefined
      | Some buf =>
          Ok ({| debugBuffer := buf; debugMsgIdx := S (debugMsgIdx t);
                 isDebugMsgReady := isDebugMsgReady t;
                 debugRxChar := debugRxChar t |},
              [CallReceiveIT])
      end
  else Ok (t, [CallReceiveIT]).

(** One received byte: the UART driver armed by ReceiveIT stores it in
    [debugRxChar] and calls InterruptRxData of the receiver (UARTDriver.hpp:
    rxCharBuf_, rxReceiver_). *)
Definition receive_byte (sendOk : bool) (c : byte) (t : DebugTask)
  : Outcome (DebugTask * list DebugCall) :=
  InterruptRxData sendOk
    {| debugBuffer := debugBuffer t; debugMsgIdx := debugMsgIdx t;
       isDebugMsgReady := isDebugMsgReady t; debugRxChar := c |}.

(** A run of received bytes. *)
Fixpoint receive_bytes (sendOk : bool) (bytes : list byte) (t : DebugTask)
  : Outcome (DebugTask * list DebugCall) :=
  match bytes with
  | [] => Ok (t, [])
  | c :: rest =>
      match receive_byte sendOk c t with
      | Ok (t1, calls1) =>
          match receive_bytes sendOk rest t1 with
          | Ok (t2, calls2) => Ok (t2, calls1 ++ calls2)
          | AssertFailed => AssertFailed
          | Undefined => Undefined
          end
      | AssertFailed => AssertFailed
      | Undefined => Undefined
      end
  end.

(** The C string at the start of an array: the bytes before the first NUL;
    [None] when the array holds no NUL. *)
Fixpoint c_str (buf : list byte) : option (list byte) :=
  match buf with
  | [] => None
  | b :: rest =>
      if Byte.eqb b x00 then Some []
      else match c_str rest with
           | Some s => Some (b :: s)
           | None => None
           end
  end.

(** [strcmp(a, b) == 0] *)
Fixpoint bytes_eqb (a b : list byte) : bool :=
  match a, b with
  | [], [] => true
  | x :: a', y :: b' => Byte.eqb x y && bytes_eqb a' b'
  | _, _ => false
  end.

(** DebugTask::HandleDebugMessage((const char* )debugBuffer) *)
Definition HandleDebugMessage (t : DebugTask) : Outcome (DebugTask * list DebugCall) :=
  match c_str (debugBuffer t) with
  | None => Undefined
  | Some msg =>
      let cleared :=
        {| debugBuffer := debugBuffer t; debugMsgIdx := 0;
           isDebugMsgReady := false; debugRxChar := debugRxChar t |} in
      if bytes_eqb msg DebugWords.sysreset then AssertFailed
      else if bytes_eqb msg DebugWords.sysinfo then
        Ok (cleared, [CallPrint; CallPrint; CallPrint; CallPrint])
      else if bytes_eqb msg DebugWords.blinkled then
        Ok (cleared, [CallPrint; CallLed1On])
      else
        Ok (cleared, [CallPrint])
  end.

(** One round of the loop of DebugTask::Run, on the Command [cm] that
    ReceiveWait delivered. *)
Definition Run_round (cm : Command) (t : DebugTask)
  : Outcome (Command * DebugTask * list DebugCall) :=
  if GLOBAL_COMMANDS_eqb (GetCommand cm) DATA_COMMAND
     && (GetTaskCommand cm =? EVENT_DEBUG_RX_COMPLETE D)%Z
  then
    match HandleDebugMessage t with
    | Ok (t', calls) => Ok (Command_Reset cm, t', calls ++ [CallReset])
    | AssertFailed => AssertFailed
    | Undefined => Undefined
    end
  else Ok (Command_Reset cm, t, [CallReset]).

(** The receive state the interrupt handler relies on: the array has room
    for DEBUG_RX_BUFFER_SZ_BYTES characters and the NUL, and while no
    message is pending the index is within the characters. *)
Definition rx_ok (t : DebugTask) : Prop :=
  DEBUG_RX_BUFFER_SZ_BYTES D < length (debugBuffer t) /\
  (isDebugMsgReady t = false -> debugMsgIdx t <= DEBUG_RX_BUFFER_SZ_BYTES D).

(** A message in progress: no message pending, [acc] received so far and
    held at the start of the array. *)
Definition collecting (t : DebugTask) (acc : list byte) : Prop :=
  isDebugMsgReady t = false /\
  debugMsgIdx t = length acc /\
  firstn (length acc) (debugBuffer t) = acc /\
  DEBUG_RX_BUFFER_SZ_BYTES D < length (debugBuffer t).

End Task.

Definition is_rearm (c : DebugCall) : bool :=
  match c with
  | CallReceiveIT => true
  | _ => false
  end.

End Debug.

Module DebugSamples.
Import Debug.

Definition sample_debug_decls : DebugDecls :=
  {| DEBUG_RX_BUFFER_SZ_BYTES := 16; EVENT_DEBUG_RX_COMPLETE := 0 |}.

(** A freshly constructed task whose array holds 16 characters and the
    NUL. *)
Definition fresh_debug_task : DebugTask := DebugTask_new 17 x00.

(** The task with the message blinkled pending. *)
Definition blinkled_pending : DebugTask :=
  {| debugBuffer := DebugWords.blinkled ++ repeat x00 9;
     debugMsgIdx := 9; isDebugMsgReady := true; debugRxChar := x0d |}.

End DebugSamples.

(* ========================================================================= *)
(** * Properties *)

(** Unfolds the monad operations of a computation applied to a state. *)
Ltac run :=
  unfold index, deref, SOAR_PRINT, SOAR_ASSERT in *;
  unfold bind, ret, get, put, emit, emits, undefined in *.

Lemma count_app (p : Event -> bool) (t1 t2 : list Event) :
  count p (t1 ++ t2) = count p t1 + count p t2.
Proof. unfold count. rewrite filter_app, length_app. reflexivity. Qed.

Lemma Node_eqb_eq (a b : Node) : Node_eqb a b = true <-> a = b.
Proof.
  destruct a, b; simpl; split; intro H; try congruence; try reflexivity.
  - apply Nat.eqb_eq in H. congruence.
  - injection H as ->. apply Nat.eqb_refl.
Qed.

Module BatteryFacts.
Import Battery Samples.

(** ** The verification loop of the constructor *)

(** A slot that passes leaves the object untouched and makes no call. *)
Lemma verify_slot_ok (sm : BatterySM) (i : nat) (s : BaseBatteryState) :
  nth_error (stateArray sm) i = Some (Some s) ->
  GetStateID s = i ->
  verify_slot i sm = Ok (tt, sm, []).
Proof.
  intros Hnth Hid. unfold verify_slot. run.
  rewrite Hnth. simpl. rewrite Hid, Nat.eqb_refl. reflexivity.
Qed.

(** A null slot, or a slot whose object reports another id, halts. *)
Lemma verify_slot_bad (sm : BatterySM) (i : nat) :
  nth_error (stateArray sm) i = Some None \/
  (exists s, nth_error (stateArray sm) i = Some (Some s) /\ GetStateID s <> i) ->
  verify_slot i sm = AssertFailed.
Proof.
  intros [Hnull | [s [Hnth Hid]]]; unfold verify_slot; run.
  - rewrite Hnull. reflexivity.
  - rewrite Hnth. simpl. apply Nat.eqb_neq in Hid. rewrite Hid. reflexivity.
Qed.

(** Within the array, a slot either passes or halts: the loop never reads
    out of bounds. *)
Lemma verify_slot_cases (sm : BatterySM) (i : nat) :
  i < length (stateArray sm) ->
  verify_slot i sm = Ok (tt, sm, []) \/ verify_slot i sm = AssertFailed.
Proof.
  intros Hlt.
  destruct (nth_error (stateArray sm) i) as [[s|]|] eqn:Hnth.
  - destruct (Nat.eq_dec (GetStateID s) i) as [Hid|Hid].
    + left. eapply verify_slot_ok; eauto.
    + right. apply verify_slot_bad. right. eauto.
  - right. apply verify_slot_bad. left. exact Hnth.
  - apply nth_error_None in Hnth. lia.
Qed.

(** The loop halts as soon as one of the visited slots is bad. *)
Lemma verify_loop_bad (sm : BatterySM) (indices : list nat) (i : nat) :
  (forall j, In j indices -> j < length (stateArray sm)) ->
  In i indices ->
  nth_error (stateArray sm) i = Some None \/
  (exists s, nth_error (stateArray sm) i = Some (Some s) /\ GetStateID s <> i) ->
  for_each indices verify_slot sm = AssertFailed.
Proof.
  induction indices as [|j rest IH]; intros Hin Hi Hbad.
  - destruct Hi.
  - simpl. unfold bind at 1.
    destruct (verify_slot_cases sm j) as [Hok | Hfail].
    + apply Hin. left. reflexivity.
    + rewrite Hok. destruct Hi as [-> | Hi].
      * rewrite (verify_slot_bad sm i Hbad) in Hok. discriminate.
      * rewrite IH; auto. intros k Hk. apply Hin. right. exact Hk.
    + rewrite Hfail. reflexivity.
Qed.

(** The loop passes over a well-formed table. *)
Lemma verify_loop_ok (sm : BatterySM) (indices : list nat) :
  (forall j, In j indices ->
     exists s, nth_error (stateArray sm) j = Some (Some s) /\ GetStateID s = j) ->
  for_each indices verify_slot sm = Ok (tt, sm, []).
Proof.
  induction indices as [|j rest IH]; intros Hall.
  - reflexivity.
  - simpl. unfold bind at 1.
    destruct (Hall j) as [s [Hnth Hid]]; [left; reflexivity|].
    rewrite (verify_slot_ok sm j s Hnth Hid).
    rewrite IH; [reflexivity|].
    intros k Hk. apply Hall. right. exact Hk.
Qed.

Lemma setup_states_ok (D : Decls) : table_ok (setup_states D).
Proof.
  split; [reflexivity|].
  intros i Hi. unfold BS_NONE in Hi.
  destruct i as [|[|[|[|i]]]]; try lia; simpl; eexists; split; reflexivity.
Qed.

(** ** TransitionState *)

(** Step 3 of TransitionState: a valid target other than the current state
    runs OnExit of the old state, OnEnter of the new one, and returns the new
    id. *)
Lemma TransitionState_moves (sm : BatterySM) (cur : BaseBatteryState) (next : BatteryState) :
  bs_currentState sm = Some cur ->
  table_ok (stateArray sm) ->
  next < BS_NONE ->
  next <> GetStateID cur ->
  exists target,
    nth_error (stateArray sm) next = Some (Some target) /\
    GetStateID target = next /\
    TransitionState next sm =
      Ok (next,
          {| stateArray := stateArray sm; bs_currentState := Some target |},
          [EvOnExit (GetStateID cur); EvOnEnter next; EvPrint]).
Proof.
  intros Hcur [_ Hslots] Hlt Hne.
  destruct (Hslots next Hlt) as [target [Hnth Hid]].
  exists target. split; [exact Hnth|]. split; [exact Hid|].
  unfold TransitionState, OnExit, OnEnter. run.
  rewrite Hcur. cbv beta iota.
  apply Nat.eqb_neq in Hne. rewrite Hne.
  apply Nat.leb_gt in Hlt. rewrite Hlt.
  rewrite Hnth. cbn. rewrite Hid. reflexivity.
Qed.

(** C4: in any current state, TransitionState on the id of the current state
    is a no-op: the machine is unchanged, no OnExit or OnEnter hook runs (the
    trace of calls is empty), and the unchanged current id is returned. *)
Theorem TransitionState_same_state_noop (sm : BatterySM) (cur : BaseBatteryState) :
  bs_currentState sm = Some cur ->
  TransitionState (GetStateID cur) sm = Ok (GetStateID cur, sm, []).
Proof.
  intros Hcur. unfold TransitionState. run.
  rewrite Hcur. simpl. rewrite Nat.eqb_refl. reflexivity.
Qed.

(** C5: a target outside [0, BS_NONE), i.e. [BS_NONE <= next], is rejected:
    the machine is unchanged, no hook runs, and the unchanged current id is
    returned. *)
Theorem TransitionState_rejects_out_of_range
    (sm : BatterySM) (cur : BaseBatteryState) (next : BatteryState) :
  bs_currentState sm = Some cur ->
  BS_NONE <= next ->
  TransitionState next sm = Ok (GetStateID cur, sm, []).
Proof.
  intros Hcur Hge. unfold TransitionState. run.
  rewrite Hcur. cbv beta iota.
  destruct (next =? GetStateID cur); [reflexivity|].
  apply Nat.leb_le in Hge. rewrite Hge. reflexivity.
Qed.

(** ** The constructor *)

(** C3: the constructor fills every slot of [0, BS_NONE) with a state object
    whose GetStateID is the slot index, and completes for every starting
    state of the enum; run on a table of BS_NONE slots in which some slot is
    null or holds an object reporting another id, it fails a fatal assertion
    instead of completing. *)
Theorem BatterySM_construction_invariant :
  (forall (D : Decls) (startingState : BatteryState) (enterStartingState : bool),
     startingState < BS_NONE ->
     exists sm tr,
       BatterySM_new D startingState enterStartingState = Ok (sm, tr) /\
       table_ok (stateArray sm) /\
       bs_currentState sm = nth startingState (stateArray sm) None) /\
  (forall (table : list (option BaseBatteryState)) (startingState : BatteryState)
          (enterStartingState : bool) (i : nat),
     length table = BS_NONE ->
     i < BS_NONE ->
     (nth_error table i = Some None \/
      exists s, nth_error table i = Some (Some s) /\ GetStateID s <> i) ->
     BatterySM_on table startingState enterStartingState = AssertFailed).
Proof.
  split.
  - intros D startingState enter Hlt. unfold BS_NONE in Hlt.
    unfold BatterySM_new, BatterySM_on, construct.
    unfold bind at 1.
    rewrite verify_loop_ok.
    + destruct startingState as [|[|[|[|n]]]]; try lia; destruct enter;
        (eexists; eexists; split; [reflexivity|]; split;
         [apply setup_states_ok | reflexivity]).
    + intros j Hj. apply in_seq in Hj.
      apply (proj2 (setup_states_ok D)). unfold BS_NONE in *. lia.
  - intros table startingState enter i Hlen Hlt Hbad.
    unfold BatterySM_on, construct. unfold bind at 1.
    rewrite (verify_loop_bad _ (seq 0 BS_NONE) i); [reflexivity | | | exact Hbad].
    + intros j Hj. apply in_seq in Hj. simpl. unfold BS_NONE in *. lia.
    + apply in_seq. unfold BS_NONE in *. lia.
Qed.

(** ** HandleCommand *)

(** C10: for every Command, of any kind and task sub-code, HandleCommand on a
    machine with a current state returns with the machine (table and current
    state pointer) unchanged, and its trace contains no OnExit or OnEnter
    call: the id computed by the data handlers is dropped. *)
Theorem HandleCommand_leaves_state_unchanged
    (D : Decls) (sm : BatterySM) (cur : BaseBatteryState) (cm : Command) :
  bs_currentState sm = Some cur ->
  exists tr,
    HandleCommand D cm sm = Ok (tt, sm, tr) /\
    count is_hook tr = 0.
Proof.
  intros Hcur. unfold HandleCommand.
  unfold call_HandleBMSData, call_HandleChargerData, call_HandleFuelGaugeData.
  run. rewrite Hcur. cbv beta iota. simpl negb. cbv beta iota.
  destruct (GetCommand cm); try (eexists; split; reflexivity).
  destruct (GetTaskCommand cm =? BMS_UPDATE D)%Z;
    [eexists; split; reflexivity|].
  destruct (GetTaskCommand cm =? CHARGER_UPDATE D)%Z;
    [eexists; split; reflexivity|].
  destruct (GetTaskCommand cm =? FUEL_GAUGE_UPDATE D)%Z;
    eexists; split; reflexivity.
Qed.

(** Without a current state the entry assertion halts the system. *)
Lemma HandleCommand_null_state (D : Decls) (sm : BatterySM) (cm : Command) :
  bs_currentState sm = None ->
  HandleCommand D cm sm = AssertFailed.
Proof.
  intros Hnull. unfold HandleCommand. run. rewrite Hnull. reflexivity.
Qed.

(** ** Concrete machines *)

Lemma TransitionState_same_state_noop_witness :
  bs_currentState idle_machine = Some (Idle sample_decls) /\
  TransitionState BS_IDLE idle_machine = Ok (BS_IDLE, idle_machine, []).
Proof.
  split; [reflexivity|].
  apply (TransitionState_same_state_noop idle_machine (Idle sample_decls)).
  reflexivity.
Defined.

Lemma TransitionState_rejects_out_of_range_witness :
  BS_NONE <= 7 /\
  TransitionState 7 idle_machine = Ok (BS_IDLE, idle_machine, []).
Proof.
  split; [unfold BS_NONE; lia|].
  apply (TransitionState_rejects_out_of_range idle_machine (Idle sample_decls) 7).
  - reflexivity.
  - unfold BS_NONE. lia.
Defined.

Lemma BatterySM_construction_invariant_witness :
  (exists sm tr,
     BatterySM_new sample_decls BS_CHARGING true = Ok (sm, tr) /\
     table_ok (stateArray sm) /\
     bs_currentState sm = nth BS_CHARGING (stateArray sm) None) /\
  BatterySM_on [Some (Idle sample_decls); None;
                Some (Discharging sample_decls); Some (Fault sample_decls)]
               BS_IDLE true = AssertFailed /\
  BatterySM_on [Some (Idle sample_decls); Some (Fault sample_decls);
                Some (Discharging sample_decls); Some (Fault sample_decls)]
               BS_IDLE true = AssertFailed.
Proof.
  split; [|split].
  - apply (proj1 BatterySM_construction_invariant).
    unfold BS_CHARGING, BS_NONE. lia.
  - apply (proj2 BatterySM_construction_invariant _ _ _ 1).
    + reflexivity.
    + unfold BS_NONE. lia.
    + left. reflexivity.
  - apply (proj2 BatterySM_construction_invariant _ _ _ 1).
    + reflexivity.
    + unfold BS_NONE. lia.
    + right. exists (Fault sample_decls). split; [reflexivity|].
      unfold GetStateID. simpl. unfold BS_FAULT. lia.
Defined.

Lemma HandleCommand_leaves_state_unchanged_witness :
  bs_currentState fault_prone_machine = Some Idle_reporting_fault /\
  exists tr,
    HandleCommand sample_decls bms_update fault_prone_machine
      = Ok (tt, fault_prone_machine, tr) /\
    count is_hook tr = 0.
Proof.
  split; [reflexivity|].
  apply (HandleCommand_leaves_state_unchanged sample_decls fault_prone_machine
           Idle_reporting_fault bms_update).
  reflexivity.
Defined.

(** C1: HandleCommand on a BMS_UPDATE data command does copy the payload and
    call HandleBMSData on the current state, but the id the handler returns
    is not applied.  Here the handler returns BS_FAULT while the machine is in
    Idle: HandleCommand leaves the machine in Idle with no hook run, whereas
    TransitionState on that id would have moved it to Fault. *)
Theorem HandleCommand_drops_handler_result :
  HandleBMSData Idle_reporting_fault [x01; x02; x03; x04] = BS_FAULT /\
  HandleCommand sample_decls bms_update fault_prone_machine
    = Ok (tt, fault_prone_machine, [EvHandleBMSData BS_IDLE [x01; x02; x03; x04]]) /\
  TransitionState BS_FAULT fault_prone_machine
    = Ok (BS_FAULT,
          {| stateArray := stateArray fault_prone_machine;
             bs_currentState := Some (Fault sample_decls) |},
          [EvOnExit BS_IDLE; EvOnEnter BS_FAULT; EvPrint]).
Proof. split; [reflexivity|]. split; reflexivity. Qed.

End BatteryFacts.

Module TaskFacts.
Import Tasks Samples.

(** Calls made outside the model never reset the Command. *)
Lemma count_reset_external (es : list External) :
  count is_reset (map EvExternal es) = 0.
Proof.
  induction es as [|e es IH]; [reflexivity|].
  simpl. exact IH.
Qed.

(** ** Reset on every dispatch path *)

Lemma BMSTask_resets_once (HandleRequestCommand : Z -> list External) (cm : Command) :
  exists tr,
    BMSTask_HandleCommand HandleRequestCommand cm tt = Ok (Command_Reset cm, tt, tr) /\
    count is_reset tr = 1.
Proof.
  unfold BMSTask_HandleCommand, Reset. run.
  destruct (GetCommand cm); eexists; (split; [reflexivity|]); try reflexivity.
  rewrite count_app, count_reset_external. reflexivity.
Qed.

Lemma TelemetryTask_resets_once (cm : Command) (t : TelemetryTask) :
  exists t' tr,
    TelemetryTask_HandleCommand cm t = Ok (Command_Reset cm, t', tr) /\
    count is_reset tr = 1.
Proof.
  unfold TelemetryTask_HandleCommand, Reset. run.
  destruct (GetCommand cm); eexists; eexists; (split; [reflexivity|]); reflexivity.
Qed.

Section FlightFacts.

Variable D : Decls.
Variable RocketSM : Type.
Variable RocketSM_new : Z -> bool -> RocketSM.
Variable RocketSM_HandleCommand : Command -> M RocketSM Command.
Variable GetRocketStateAsProto : RocketSM -> nat.

(** SendRocketState sends one control envelope and never touches the
    Command. *)
Lemma SendRocketState_trace (ft : FlightTask RocketSM) (rsm : RocketSM) :
  rsm_ ft = Some rsm ->
  exists ft' m,
    SendRocketState D GetRocketStateAsProto ft
      = Ok (tt, ft', [EvSendProtobufMessage m MSG_CONTROL]).
Proof.
  intros Hrsm. unfold SendRocketState. run. rewrite Hrsm.
  destruct (firstStateSent_ ft <? FLIGHT_TASK_BOOTUP_TELE_CYCLES D)%Z;
    eexists; eexists; reflexivity.
Qed.

Lemma FlightTask_resets_once (cm : Command) (ft : FlightTask RocketSM) (rsm : RocketSM) :
  rsm_ ft = Some rsm ->
  (is_transmit_state_request D cm = true \/
   exists cm1 rsm1 tr1,
     RocketSM_HandleCommand cm rsm = Ok (cm1, rsm1, tr1) /\
     count is_reset tr1 = 0) ->
  exists cm' ft' tr,
    FlightTask_HandleCommand D RocketSM_HandleCommand GetRocketStateAsProto cm ft
      = Ok (cm', ft', tr) /\
    count is_reset tr = 1.
Proof.
  intros Hrsm Hpath. unfold FlightTask_HandleCommand, Reset.
  destruct (is_transmit_state_request D cm) eqn:Hreq.
  - destruct (SendRocketState_trace ft rsm Hrsm) as [ft' [m Hsend]].
    run. rewrite Hsend.
    eexists; eexists; eexists. split; reflexivity.
  - destruct Hpath as [Habs | [cm1 [rsm1 [tr1 [Hrun Hcount]]]]]; [discriminate|].
    unfold rsm_HandleCommand. run. rewrite Hrsm, Hrun.
    eexists; eexists; eexists. split; [reflexivity|].
    rewrite count_app, Hcount. reflexivity.
Qed.

End FlightFacts.

(** C9: on every dispatch path of BMSTask, TelemetryTask and FlightTask
    HandleCommand, including the default branch, the handler returns having
    called Reset on the Command exactly once.  For FlightTask the path
    through the state machine is the one on which RocketSM::HandleCommand,
    which is not part of the sources, returns without resetting the Command
    itself. *)
Theorem HandleCommand_resets_exactly_once :
  (forall (HandleRequestCommand : Z -> list External) (cm : Command),
     exists cm' tr,
       BMSTask_HandleCommand HandleRequestCommand cm tt = Ok (cm', tt, tr) /\
       count is_reset tr = 1) /\
  (forall (cm : Command) (t : TelemetryTask),
     exists cm' t' tr,
       TelemetryTask_HandleCommand cm t = Ok (cm', t', tr) /\
       count is_reset tr = 1) /\
  (forall (D : Decls) (RocketSM : Type)
          (RocketSM_HandleCommand : Command -> M RocketSM Command)
          (GetRocketStateAsProto : RocketSM -> nat)
          (cm : Command) (ft : FlightTask RocketSM) (rsm : RocketSM),
     rsm_ ft = Some rsm ->
     (is_transmit_state_request D cm = true \/
      exists cm1 rsm1 tr1,
        RocketSM_HandleCommand cm rsm = Ok (cm1, rsm1, tr1) /\
        count is_reset tr1 = 0) ->
     exists cm' ft' tr,
       FlightTask_HandleCommand D RocketSM_HandleCommand GetRocketStateAsProto cm ft
         = Ok (cm', ft', tr) /\
       count is_reset tr = 1).
Proof.
  split; [|split].
  - intros H cm. destruct (BMSTask_resets_once H cm) as [tr [Hrun Hcount]].
    exists (Command_Reset cm), tr. split; assumption.
  - intros cm t. destruct (TelemetryTask_resets_once cm t) as [t' [tr [Hrun Hcount]]].
    exists (Command_Reset cm), t', tr. split; assumption.
  - intros D RocketSM Hcmd Hproto cm ft rsm Hrsm Hpath.
    exact (FlightTask_resets_once D RocketSM Hcmd Hproto cm ft rsm Hrsm Hpath).
Qed.

(** ** Start-up of FlightTask::Run *)

(** C8: when the persisted system state cannot be read, or the persisted
    phase lies outside [RS_PRELAUNCH, RS_NONE), Run constructs the rocket
    state machine with starting state RS_ABORT; otherwise with the persisted
    phase. *)
Theorem Run_startup_recovers_state
    (D : Decls) (RocketSM : Type) (RocketSM_new : Z -> bool -> RocketSM)
    (stored : option SystemState) (ft : FlightTask RocketSM) :
  ((stored = None \/
    exists s, stored = Some s /\
              (rocketState s < RS_PRELAUNCH D \/ RS_NONE D <= rocketState s)%Z) ->
   Run_startup D RocketSM_new stored ft
     = Ok (tt,
           {| rsm_ := Some (RocketSM_new (RS_ABORT D) true);
              firstStateSent_ := firstStateSent_ ft |},
           [EvNewRocketSM (RS_ABORT D) true])) /\
  (forall s, stored = Some s ->
             (RS_PRELAUNCH D <= rocketState s < RS_NONE D)%Z ->
   Run_startup D RocketSM_new stored ft
     = Ok (tt,
           {| rsm_ := Some (RocketSM_new (rocketState s) true);
              firstStateSent_ := firstStateSent_ ft |},
           [EvNewRocketSM (rocketState s) true])).
Proof.
  split.
  - intros [-> | [s [-> Hout]]]; unfold Run_startup, new_RocketSM; run.
    + reflexivity.
    + replace ((rocketState s >=? RS_NONE D) || (rocketState s <? RS_PRELAUNCH D))%Z
        with true; [reflexivity|].
      symmetry. apply orb_true_iff.
      destruct Hout as [Hlow | Hhigh].
      * right. apply Z.ltb_lt. exact Hlow.
      * left. apply Z.geb_le. exact Hhigh.
  - intros s -> [Hlow Hhigh]. unfold Run_startup, new_RocketSM; run.
    replace ((rocketState s >=? RS_NONE D) || (rocketState s <? RS_PRELAUNCH D))%Z
      with false; [reflexivity|].
    symmetry. apply orb_false_iff. split.
    + rewrite Z.geb_leb. apply Z.leb_gt. exact Hhigh.
    + apply Z.ltb_ge. exact Hlow.
Qed.

(** ** Concrete runs *)

Lemma HandleCommand_resets_exactly_once_witness :
  (exists cm' tr,
     BMSTask_HandleCommand (fun code => [ExtCall code]) unsupported_command tt
       = Ok (cm', tt, tr) /\
     count is_reset tr = 1) /\
  (exists cm' t' tr,
     TelemetryTask_HandleCommand unsupported_command TelemetryTask_new
       = Ok (cm', t', tr) /\
     count is_reset tr = 1) /\
  (exists cm' ft' tr,
     FlightTask_HandleCommand sample_decls battery_as_rsm
       (fun sm => 0) bms_update sample_flight_task
       = Ok (cm', ft', tr) /\
     count is_reset tr = 1).
Proof.
  split; [|split].
  - apply (proj1 HandleCommand_resets_exactly_once).
  - apply (proj1 (proj2 HandleCommand_resets_exactly_once)).
  - apply (proj2 (proj2 HandleCommand_resets_exactly_once)
             sample_decls Battery.BatterySM battery_as_rsm (fun sm => 0)
             bms_update sample_flight_task idle_machine).
    + reflexivity.
    + right. eexists; eexists; eexists. split; reflexivity.
Defined.

Lemma Run_startup_recovers_state_witness :
  Run_startup sample_decls (fun (s : Z) (enter : bool) => s)
    None FlightTask_new
    = Ok (tt, {| rsm_ := Some 9%Z; firstStateSent_ := 0 |}, [EvNewRocketSM 9 true]) /\
  Run_startup sample_decls (fun (s : Z) (enter : bool) => s)
    (Some {| rocketState := 11 |}) FlightTask_new
    = Ok (tt, {| rsm_ := Some 9%Z; firstStateSent_ := 0 |}, [EvNewRocketSM 9 true]) /\
  Run_startup sample_decls (fun (s : Z) (enter : bool) => s)
    (Some {| rocketState := 3 |}) FlightTask_new
    = Ok (tt, {| rsm_ := Some 3%Z; firstStateSent_ := 0 |}, [EvNewRocketSM 3 true]).
Proof.
  split; [|split].
  - apply (proj1 (Run_startup_recovers_state sample_decls Z
                    (fun s _ => s) None FlightTask_new)).
    left. reflexivity.
  - apply (proj1 (Run_startup_recovers_state sample_decls Z
                    (fun s _ => s) (Some {| rocketState := 11 |}) FlightTask_new)).
    right. exists {| rocketState := 11 |}. split; [reflexivity|].
    right. simpl. lia.
  - apply (proj2 (Run_startup_recovers_state sample_decls Z
                    (fun s _ => s) (Some {| rocketState := 3 |}) FlightTask_new)
             {| rocketState := 3 |}).
    + reflexivity.
    + simpl. lia.
Defined.

End TaskFacts.

Module GatewayFacts.
Import Gateway Samples.

Lemma Node_eqb_neq (a b : Node) : a <> b -> Node_eqb a b = false.
Proof.
  intros Hne. destruct (Node_eqb a b) eqn:Heq; [|reflexivity].
  apply Node_eqb_eq in Heq. contradiction.
Qed.

(** The routing test of both handlers fails as soon as the source is not the
    controller or the target is not this node. *)
Lemma misrouted_test (source target : Node) :
  source <> NODE_RCU \/ target <> NODE_PMB ->
  negb (Node_eqb source NODE_RCU) || negb (Node_eqb target NODE_PMB) = true.
Proof.
  intros [Hs | Ht].
  - rewrite (Node_eqb_neq _ _ Hs). reflexivity.
  - rewrite (Node_eqb_neq _ _ Ht). apply orb_true_r.
Qed.

(** C6: a command or control envelope whose source is not NODE_RCU or whose
    target is not NODE_PMB is dropped: the handler returns normally and makes
    no call at all, so no Command reaches a task queue and nothing is
    transmitted. *)
Theorem misrouted_envelope_is_dropped :
  (forall (D : Decls) (msg : CommandMessage),
     cmd_source msg <> NODE_RCU \/ cmd_target msg <> NODE_PMB ->
     HandleProtobufCommandMessage D msg tt = Ok (tt, tt, [])) /\
  (forall (D : Decls) (msg : ControlMessage),
     ctl_source msg <> NODE_RCU \/ ctl_target msg <> NODE_PMB ->
     HandleProtobufControlMesssage D msg tt = Ok (tt, tt, [])).
Proof.
  split; intros D msg Hbad.
  - unfold HandleProtobufCommandMessage.
    rewrite (misrouted_test _ _ Hbad). reflexivity.
  - unfold HandleProtobufControlMesssage.
    rewrite (misrouted_test _ _ Hbad). reflexivity.
Qed.

(** C7: a ping from NODE_RCU to NODE_PMB with source sequence number n
    produces exactly one call, the transmission of a control envelope whose
    acknowledgement names NODE_RCU as the acked source and carries n; no
    Command is sent to any task. *)
Theorem ping_is_acknowledged (D : Decls) (msg : ControlMessage) (n : Z) :
  ctl_source msg = NODE_RCU ->
  ctl_target msg = NODE_PMB ->
  ctl_body msg = body_ping ->
  source_sequence_num msg = n ->
  HandleProtobufControlMesssage D msg tt
    = Ok (tt, tt,
          [EvSendProtobufMessage
             {| ctl_source := NODE_INVALID; ctl_target := NODE_INVALID;
                source_sequence_num := 0;
                ctl_body := body_ack {| acking_msg_source := NODE_RCU;
                                        acking_sequence_num := n |} |}
             MSG_CONTROL]).
Proof.
  intros Hs Ht Hb Hn. unfold HandleProtobufControlMesssage.
  rewrite Hs, Ht, Hb, Hn. reflexivity.
Qed.

(** The period forwarded on a log-period change: the parameter itself up to
    0xFFFF, and 0xFFFE above. *)
Lemma log_period_change_forwarded (D : Decls) (msg : ControlMessage) (p : Z) :
  ctl_source msg = NODE_RCU ->
  ctl_target msg = NODE_PMB ->
  ctl_body msg = body_sys_ctrl {| sys_cmd := SYS_LOG_PERIOD_CHANGE; cmd_param := p |} ->
  (0 <= p)%Z ->
  HandleProtobufControlMesssage D msg tt
    = Ok (tt, tt,
          [EvSendCommand TelemetryTask_id
             {| command := TELEMETRY_CHANGE_PERIOD;
                taskCommand := if (p >? 0xFFFF)%Z then 0xFFFE%Z else p;
                data := None |}]).
Proof.
  intros Hs Ht Hb Hp. unfold HandleProtobufControlMesssage.
  rewrite Hs, Ht, Hb. cbn -[Z.gtb to_uint16].
  unfold SendCommand, Command_new, emit, to_uint16.
  destruct (p >? 65535)%Z eqn:Hgt.
  - reflexivity.
  - rewrite Z.gtb_ltb in Hgt. apply Z.ltb_ge in Hgt.
    rewrite Z.mod_small by lia. reflexivity.
Qed.

(** ** Concrete envelopes *)

Lemma misrouted_envelope_is_dropped_witness :
  HandleProtobufCommandMessage sample_decls (abort_from NODE_RCU NODE_DMB) tt
    = Ok (tt, tt, []) /\
  HandleProtobufControlMesssage sample_decls
    {| ctl_source := NODE_DMB; ctl_target := NODE_PMB;
       source_sequence_num := 42; ctl_body := body_ping |} tt
    = Ok (tt, tt, []).
Proof.
  split.
  - apply (proj1 misrouted_envelope_is_dropped). right. simpl. discriminate.
  - apply (proj2 misrouted_envelope_is_dropped). left. simpl. discriminate.
Defined.

Lemma ping_is_acknowledged_witness :
  HandleProtobufControlMesssage sample_decls ping_42 tt
    = Ok (tt, tt,
          [EvSendProtobufMessage
             {| ctl_source := NODE_INVALID; ctl_target := NODE_INVALID;
                source_sequence_num := 0;
                ctl_body := body_ack {| acking_msg_source := NODE_RCU;
                                        acking_sequence_num := 42 |} |}
             MSG_CONTROL]).
Proof.
  apply (ping_is_acknowledged sample_decls ping_42 42); reflexivity.
Defined.

(** A routed command envelope does reach the flight task: the routing test
    is what drops the misrouted one. *)
Example routed_abort_reaches_flight_task :
  HandleProtobufCommandMessage sample_decls (abort_from NODE_RCU NODE_PMB) tt
    = Ok (tt, tt, [EvSendCommand FlightTask_id
                     {| command := CONTROL_ACTION; taskCommand := 9; data := None |}]).
Proof. reflexivity. Qed.

(** C2: on a log-period change with parameter 100000 the gateway forwards a
    TELEMETRY_CHANGE_PERIOD Command carrying 65534 (0xFFFE), not the maximum
    16-bit value 65535, and the telemetry task takes 65534 as its period; a
    parameter of 65535 itself is forwarded unchanged. *)
Theorem log_period_100000_forwards_65534 :
  HandleProtobufControlMesssage sample_decls (period_change 100000) tt
    = Ok (tt, tt,
          [EvSendCommand TelemetryTask_id
             {| command := TELEMETRY_CHANGE_PERIOD; taskCommand := 65534; data := None |}]) /\
  (exists cm' t' tr,
     Tasks.TelemetryTask_HandleCommand
       {| command := TELEMETRY_CHANGE_PERIOD; taskCommand := 65534; data := None |}
       Tasks.TelemetryTask_new = Ok (cm', t', tr) /\
     Tasks.loggingDelayMs t' = 65534%Z) /\
  HandleProtobufControlMesssage sample_decls (period_change 65535) tt
    = Ok (tt, tt,
          [EvSendCommand TelemetryTask_id
             {| command := TELEMETRY_CHANGE_PERIOD; taskCommand := 65535; data := None |}]).
Proof.
  split; [reflexivity|]. split; [|reflexivity].
  eexists; eexists; eexists. split; reflexivity.
Qed.

End GatewayFacts.

Module BatteryMoreFacts.
Import Battery BatteryMore Samples.

(** ** Well-formed machines *)

Lemma machine_ok_current_valid (sm : BatterySM) (cur : BaseBatteryState) :
  machine_ok sm -> bs_currentState sm = Some cur -> GetStateID cur < BS_NONE.
Proof.
  intros [[Hlen _] [c [Hc Hnth]]] Hcur.
  rewrite Hcur in Hc. injection Hc as <-.
  rewrite <- Hlen. apply nth_error_Some. rewrite Hnth. discriminate.
Qed.

Lemma moved_machine_ok (sm : BatterySM) (target : BaseBatteryState) :
  table_ok (stateArray sm) ->
  nth_error (stateArray sm) (GetStateID target) = Some (Some target) ->
  machine_ok {| stateArray := stateArray sm; bs_currentState := Some target |}.
Proof.
  intros Htable Hnth. split; [exact Htable|].
  exists target. split; [reflexivity | exact Hnth].
Qed.

(** The two ways a call of TransitionState on a well-formed machine ends. *)
Lemma TransitionState_cases (sm : BatterySM) (next : BatteryState) :
  machine_ok sm ->
  exists cur,
    bs_currentState sm = Some cur /\
    (((next = GetStateID cur \/ BS_NONE <= next) /\
      TransitionState next sm = Ok (GetStateID cur, sm, []))
     \/
     (next <> GetStateID cur /\ next < BS_NONE /\
      exists target,
        nth_error (stateArray sm) next = Some (Some target) /\
        GetStateID target = next /\
        TransitionState next sm =
          Ok (next,
              {| stateArray := stateArray sm; bs_currentState := Some target |},
              [EvOnExit (GetStateID cur); EvOnEnter next; EvPrint]))).
Proof.
  intros [Htable [cur [Hcur Hnth]]]. exists cur. split; [exact Hcur|].
  destruct (Nat.eq_dec next (GetStateID cur)) as [Heq | Hne].
  - left. split; [left; exact Heq|].
    unfold TransitionState. run. rewrite Hcur. cbv beta iota.
    rewrite Heq, Nat.eqb_refl. reflexivity.
  - destruct (le_lt_dec BS_NONE next) as [Hge | Hlt].
    + left. split; [right; exact Hge|].
      unfold TransitionState. run. rewrite Hcur. cbv beta iota.
      apply Nat.eqb_neq in Hne. rewrite Hne.
      apply Nat.leb_le in Hge. rewrite Hge. reflexivity.
    + right. split; [exact Hne|]. split; [exact Hlt|].
      destruct (BatteryFacts.TransitionState_moves sm cur next Hcur Htable Hlt Hne)
        as [target [Ht [Hid Hrun]]].
      exists target. auto.
Qed.

(** ** The constructor *)

(** X1: for every starting state of the enum the constructor completes with
    a well-formed machine whose current state is the requested one; OnEnter
    of that state is called when enterStartingState is set and no hook is
    called when it is not. *)
Theorem BatterySM_new_enters_on_request
    (D : Decls) (startingState : BatteryState) (enterStartingState : bool) :
  startingState < BS_NONE ->
  exists sm,
    BatterySM_new D startingState enterStartingState
      = Ok (sm, (if enterStartingState then [EvOnEnter startingState] else [])
                ++ [EvPrint]) /\
    machine_ok sm /\
    current_id sm = Some startingState.
Proof.
  intros Hlt. unfold BS_NONE in Hlt.
  destruct startingState as [|[|[|[|n]]]]; try lia; destruct enterStartingState;
    (eexists; split; [reflexivity|]; split; [|reflexivity];
     apply moved_machine_ok; [apply BatteryFacts.setup_states_ok | reflexivity]).
Qed.

(** X2: the constructor does not validate its starting state: with BS_NONE
    or anything above, the table passes the verification loop and the
    current-state pointer is then read past the end of the table. *)
Theorem BatterySM_new_reads_past_table
    (D : Decls) (startingState : BatteryState) (enterStartingState : bool) :
  BS_NONE <= startingState ->
  BatterySM_new D startingState enterStartingState = Undefined.
Proof.
  intros Hge. unfold BS_NONE in Hge.
  unfold BatterySM_new, BatterySM_on, construct.
  unfold bind at 1.
  rewrite BatteryFacts.verify_loop_ok.
  - run. cbv beta iota.
    replace (nth_error (stateArray {| stateArray := setup_states D;
                                      bs_currentState := None |}) startingState)
      with (@None (option BaseBatteryState)); [reflexivity|].
    symmetry. apply nth_error_None. simpl. lia.
  - intros j Hj. apply in_seq in Hj.
    apply (proj2 (BatteryFacts.setup_states_ok D)). unfold BS_NONE in *. lia.
Qed.

(** ** TransitionState on a well-formed machine *)

(** X3: a request for a state of the enum other than the current one calls
    OnExit of the old state, then OnEnter of the new one, returns the new id
    and leaves a well-formed machine in the requested state over the same
    table. *)
Theorem TransitionState_valid_target
    (sm : BatterySM) (cur : BaseBatteryState) (next : BatteryState) :
  machine_ok sm ->
  bs_currentState sm = Some cur ->
  next < BS_NONE ->
  next <> GetStateID cur ->
  exists sm',
    TransitionState next sm
      = Ok (next, sm', [EvOnExit (GetStateID cur); EvOnEnter next; EvPrint]) /\
    machine_ok sm' /\
    stateArray sm' = stateArray sm /\
    current_id sm' = Some next.
Proof.
  intros Hok Hcur Hlt Hne.
  destruct (TransitionState_cases sm next Hok) as [c [Hc Hcase]].
  rewrite Hcur in Hc. injection Hc as <-.
  destruct Hcase as [[[Heq | Hge] _] | [_ [_ [target [Hnth [Hid Hrun]]]]]].
  - contradiction.
  - lia.
  - eexists. split; [exact Hrun|]. split; [|split].
    + apply moved_machine_ok; [exact (proj1 Hok) | rewrite Hid; exact Hnth].
    + reflexivity.
    + unfold current_id. simpl. rewrite Hid. reflexivity.
Qed.

(** X4: on a well-formed machine TransitionState never fails, whatever the
    target: it returns the id of the state the machine is in afterwards, a
    state of the enum; the machine stays well-formed over the same table; a
    target of the enum becomes the current state and any other target leaves
    the current state as it was. *)
Theorem TransitionState_keeps_machine_ok
    (sm : BatterySM) (cur : BaseBatteryState) (next : BatteryState) :
  machine_ok sm ->
  bs_currentState sm = Some cur ->
  exists id sm' tr,
    TransitionState next sm = Ok (id, sm', tr) /\
    machine_ok sm' /\
    stateArray sm' = stateArray sm /\
    current_id sm' = Some id /\
    id < BS_NONE /\
    id = (if next <? BS_NONE then next else GetStateID cur).
Proof.
  intros Hok Hcur.
  pose proof (machine_ok_current_valid sm cur Hok Hcur) as Hvalid.
  destruct (TransitionState_cases sm next Hok) as [c [Hc Hcase]].
  rewrite Hcur in Hc. injection Hc as <-.
  destruct Hcase as [[Hnoop Hrun] | [_ [Hlt [target [Hnth [Hid Hrun]]]]]].
  - exists (GetStateID cur), sm, []. split; [exact Hrun|].
    split; [exact Hok|]. split; [reflexivity|].
    split; [unfold current_id; rewrite Hcur; reflexivity|].
    split; [exact Hvalid|].
    destruct Hnoop as [Heq | Hge].
    + rewrite Heq. apply Nat.ltb_lt in Hvalid. rewrite Hvalid. reflexivity.
    + apply Nat.ltb_ge in Hge. rewrite Hge. reflexivity.
  - eexists; eexists; eexists. split; [exact Hrun|].
    split; [apply moved_machine_ok; [exact (proj1 Hok) | rewrite Hid; exact Hnth]|].
    split; [reflexivity|].
    split; [unfold current_id; simpl; rewrite Hid; reflexivity|].
    split; [exact Hlt|].
    apply Nat.ltb_lt in Hlt. rewrite Hlt. reflexivity.
Qed.

(** X5: repeating a request changes nothing: two successive calls of
    TransitionState with the same target end in the same result, machine and
    trace of calls as a single one. *)
Theorem TransitionState_twice (sm : BatterySM) (next : BatteryState) :
  machine_ok sm ->
  bind (TransitionState next) (fun _ => TransitionState next) sm
    = TransitionState next sm.
Proof.
  intros Hok.
  destruct (TransitionState_cases sm next Hok) as [cur [Hcur Hcase]].
  destruct Hcase as [[Hnoop Hrun] | [_ [Hlt [target [Hnth [Hid Hrun]]]]]].
  - unfold bind. rewrite Hrun. cbv beta iota. rewrite Hrun. reflexivity.
  - unfold bind. rewrite Hrun. cbv beta iota.
    assert (Hok' : machine_ok {| stateArray := stateArray sm;
                                 bs_currentState := Some target |}).
    { apply moved_machine_ok; [exact (proj1 Hok) | rewrite Hid; exact Hnth]. }
    destruct (TransitionState_cases _ next Hok') as [c [Hc Hcase']].
    simpl in Hc. injection Hc as <-.
    destruct Hcase' as [[_ Hrun'] | [Hne _]].
    + rewrite Hrun', Hid. reflexivity.
    + symmetry in Hid. contradiction.
Qed.

(** X6: any run of TransitionState requests on a well-formed machine
    completes; the machine stays well-formed over the same table, ends in
    the last requested state of the enum (in its initial state when there is
    none), and has called OnEnter exactly as often as OnExit. *)
Theorem TransitionStates_run
    (targets : list BatteryState) (sm : BatterySM) (cur : BaseBatteryState) :
  machine_ok sm ->
  bs_currentState sm = Some cur ->
  exists sm' tr,
    TransitionStates targets sm = Ok (tt, sm', tr) /\
    machine_ok sm' /\
    stateArray sm' = stateArray sm /\
    current_id sm' = Some (last_valid (GetStateID cur) targets) /\
    count is_on_enter tr = count is_on_exit tr.
Proof.
  revert sm cur.
  induction targets as [|next rest IH]; intros sm cur Hok Hcur.
  - exists sm, []. split; [reflexivity|]. split; [exact Hok|].
    split; [reflexivity|]. split; [|reflexivity].
    unfold current_id. rewrite Hcur. reflexivity.
  - pose proof (machine_ok_current_valid sm cur Hok Hcur) as Hvalid.
    destruct (TransitionState_cases sm next Hok) as [c [Hc Hcase]].
    rewrite Hcur in Hc. injection Hc as <-.
    simpl TransitionStates. unfold bind at 1.
    destruct Hcase as [[Hnoop Hrun] | [_ [Hlt [target [Hnth [Hid Hrun]]]]]].
    + rewrite Hrun.
      destruct (IH sm cur Hok Hcur) as [sm' [tr [Hrest [Hok' [Htab [Hid' Hbal]]]]]].
      rewrite Hrest. exists sm', tr.
      split; [reflexivity|]. split; [exact Hok'|]. split; [exact Htab|].
      split; [|exact Hbal].
      rewrite Hid'. unfold last_valid. simpl.
      destruct Hnoop as [Heq | Hge].
      * rewrite Heq. apply Nat.ltb_lt in Hvalid. rewrite Hvalid. reflexivity.
      * apply Nat.ltb_ge in Hge. rewrite Hge. reflexivity.
    + rewrite Hrun.
      assert (Hok1 : machine_ok {| stateArray := stateArray sm;
                                   bs_currentState := Some target |}).
      { apply moved_machine_ok; [exact (proj1 Hok) | rewrite Hid; exact Hnth]. }
      destruct (IH _ target Hok1 eq_refl)
        as [sm' [tr [Hrest [Hok' [Htab [Hid' Hbal]]]]]].
      rewrite Hrest. eexists; eexists.
      split; [reflexivity|]. split; [exact Hok'|]. split; [exact Htab|].
      split.
      * rewrite Hid', Hid. unfold last_valid. simpl.
        apply Nat.ltb_lt in Hlt. rewrite Hlt. reflexivity.
      * change ([EvOnExit (GetStateID cur); EvOnEnter next; EvPrint] ++ tr)
          with (EvOnExit (GetStateID cur) :: EvOnEnter next :: EvPrint :: tr).
        unfold count in *. simpl. rewrite Hbal. reflexivity.
Qed.

(** ** GetBatteryStateAsProto and HandleCommand *)

(** X7: on well-formed machines GetBatteryStateAsProto returns without
    touching the machine, never reports BS_NONE, and reports the same value
    for two machines exactly when they are in the same state. *)
Theorem GetBatteryStateAsProto_faithful (sm1 sm2 : BatterySM) :
  machine_ok sm1 ->
  machine_ok sm2 ->
  exists p1 p2,
    GetBatteryStateAsProto sm1 = Ok (p1, sm1, []) /\
    GetBatteryStateAsProto sm2 = Ok (p2, sm2, []) /\
    p1 <> Proto_BS_NONE /\
    (p1 = p2 <-> current_id sm1 = current_id sm2).
Proof.
  intros Hok1 Hok2.
  destruct (proj2 Hok1) as [c1 [Hc1 _]]. destruct (proj2 Hok2) as [c2 [Hc2 _]].
  pose proof (machine_ok_current_valid sm1 c1 Hok1 Hc1) as Hv1.
  pose proof (machine_ok_current_valid sm2 c2 Hok2 Hc2) as Hv2.
  unfold GetBatteryStateAsProto, current_id. run. rewrite Hc1, Hc2. simpl.
  unfold BS_NONE in *.
  destruct (GetStateID c1) as [|[|[|[|n1]]]]; try lia;
    destruct (GetStateID c2) as [|[|[|[|n2]]]]; try lia;
    (eexists; eexists; split; [reflexivity|]; split; [reflexivity|];
     split; [discriminate|]; split; intro H; try reflexivity; discriminate H).
Qed.

(** X8: HandleCommand calls at most one data handler per Command, and it
    calls one exactly when the Command is a DATA_COMMAND whose sub-code is
    BMS_UPDATE, CHARGER_UPDATE or FUEL_GAUGE_UPDATE. *)
Theorem HandleCommand_calls_one_handler
    (D : Decls) (sm : BatterySM) (cur : BaseBatteryState) (cm : Command) :
  bs_currentState sm = Some cur ->
  exists tr,
    HandleCommand D cm sm = Ok (tt, sm, tr) /\
    count is_data_handler tr <= 1 /\
    (count is_data_handler tr = 1 <->
     GetCommand cm = DATA_COMMAND /\
     (GetTaskCommand cm = BMS_UPDATE D \/
      GetTaskCommand cm = CHARGER_UPDATE D \/
      GetTaskCommand cm = FUEL_GAUGE_UPDATE D)).
Proof.
  intros Hcur. unfold HandleCommand.
  unfold call_HandleBMSData, call_HandleChargerData, call_HandleFuelGaugeData.
  run. rewrite Hcur. cbv beta iota. simpl negb. cbv beta iota.
  destruct (GetCommand cm) eqn:Hkind;
    try (exists []; split; [reflexivity|]; split; [unfold count; simpl; lia|];
         split; [unfold count; simpl; discriminate | intros [H _]; discriminate H]).
  destruct (Z.eqb_spec (GetTaskCommand cm) (BMS_UPDATE D)) as [Hb | Hb];
    [eexists; split; [reflexivity|]; split; [unfold count; simpl; lia|];
     split; [intros _; auto | reflexivity] |].
  destruct (Z.eqb_spec (GetTaskCommand cm) (CHARGER_UPDATE D)) as [Hc | Hc];
    [eexists; split; [reflexivity|]; split; [unfold count; simpl; lia|];
     split; [intros _; auto | reflexivity] |].
  destruct (Z.eqb_spec (GetTaskCommand cm) (FUEL_GAUGE_UPDATE D)) as [Hf | Hf];
    [eexists; split; [reflexivity|]; split; [unfold count; simpl; lia|];
     split; [intros _; auto | reflexivity] |].
  eexists. split; [reflexivity|]. split; [unfold count; simpl; lia|].
  split; [unfold count; simpl; discriminate|].
  intros [_ [H | [H | H]]]; contradiction.
Qed.

(** ** Concrete runs *)

Lemma idle_machine_ok : machine_ok idle_machine.
Proof.
  apply moved_machine_ok; [apply BatteryFacts.setup_states_ok | reflexivity].
Qed.

Lemma BatterySM_new_enters_on_request_witness :
  BS_DISCHARGING < BS_NONE /\
  exists sm,
    BatterySM_new sample_decls BS_DISCHARGING false = Ok (sm, [EvPrint]) /\
    machine_ok sm /\
    current_id sm = Some BS_DISCHARGING.
Proof.
  split; [unfold BS_DISCHARGING, BS_NONE; lia|].
  apply (BatterySM_new_enters_on_request sample_decls BS_DISCHARGING false).
  unfold BS_DISCHARGING, BS_NONE. lia.
Defined.

Lemma BatterySM_new_reads_past_table_witness :
  BS_NONE <= BS_NONE /\
  BatterySM_new sample_decls BS_NONE true = Undefined.
Proof.
  split; [lia|].
  apply (BatterySM_new_reads_past_table sample_decls BS_NONE true). lia.
Defined.

Lemma TransitionState_valid_target_witness :
  exists sm',
    TransitionState BS_CHARGING idle_machine
      = Ok (BS_CHARGING, sm', [EvOnExit BS_IDLE; EvOnEnter BS_CHARGING; EvPrint]) /\
    machine_ok sm' /\
    stateArray sm' = stateArray idle_machine /\
    current_id sm' = Some BS_CHARGING.
Proof.
  apply (TransitionState_valid_target idle_machine (Idle sample_decls) BS_CHARGING).
  - exact idle_machine_ok.
  - reflexivity.
  - unfold BS_CHARGING, BS_NONE. lia.
  - simpl. unfold BS_CHARGING, BS_IDLE. lia.
Defined.

Lemma TransitionState_keeps_machine_ok_witness :
  exists id sm' tr,
    TransitionState 9 idle_machine = Ok (id, sm', tr) /\
    machine_ok sm' /\
    stateArray sm' = stateArray idle_machine /\
    current_id sm' = Some id /\
    id < BS_NONE /\
    id = BS_IDLE.
Proof.
  apply (TransitionState_keeps_machine_ok idle_machine (Idle sample_decls) 9).
  - exact idle_machine_ok.
  - reflexivity.
Defined.

Lemma TransitionState_twice_witness :
  bind (TransitionState BS_FAULT) (fun _ => TransitionState BS_FAULT) idle_machine
    = TransitionState BS_FAULT idle_machine.
Proof.
  apply (TransitionState_twice idle_machine BS_FAULT). exact idle_machine_ok.
Defined.

Lemma TransitionStates_run_witness :
  exists sm' tr,
    TransitionStates [BS_CHARGING; 7; BS_CHARGING; BS_FAULT; BS_NONE] idle_machine
      = Ok (tt, sm', tr) /\
    machine_ok sm' /\
    stateArray sm' = stateArray idle_machine /\
    current_id sm' = Some BS_FAULT /\
    count is_on_enter tr = count is_on_exit tr.
Proof.
  apply (TransitionStates_run [BS_CHARGING; 7; BS_CHARGING; BS_FAULT; BS_NONE]
           idle_machine (Idle sample_decls)).
  - exact idle_machine_ok.
  - reflexivity.
Defined.

Lemma GetBatteryStateAsProto_faithful_witness :
  exists p1 p2,
    GetBatteryStateAsProto idle_machine = Ok (p1, idle_machine, []) /\
    GetBatteryStateAsProto
      {| stateArray := stateArray idle_machine;
         bs_currentState := Some (Charging sample_decls) |}
      = Ok (p2,
            {| stateArray := stateArray idle_machine;
               bs_currentState := Some (Charging sample_decls) |}, []) /\
    p1 <> Proto_BS_NONE /\
    (p1 = p2 <->
     current_id idle_machine =
     current_id {| stateArray := stateArray idle_machine;
                   bs_currentState := Some (Charging sample_decls) |}).
Proof.
  apply (GetBatteryStateAsProto_faithful idle_machine
           {| stateArray := stateArray idle_machine;
              bs_currentState := Some (Charging sample_decls) |}).
  - exact idle_machine_ok.
  - apply moved_machine_ok; [exact (proj1 idle_machine_ok) | reflexivity].
Defined.

Lemma HandleCommand_calls_one_handler_witness :
  exists tr,
    HandleCommand sample_decls bms_update fault_prone_machine
      = Ok (tt, fault_prone_machine, tr) /\
    count is_data_handler tr <= 1 /\
    (count is_data_handler tr = 1 <->
     GetCommand bms_update = DATA_COMMAND /\
     (GetTaskCommand bms_update = BMS_UPDATE sample_decls \/
      GetTaskCommand bms_update = CHARGER_UPDATE sample_decls \/
      GetTaskCommand bms_update = FUEL_GAUGE_UPDATE sample_decls)).
Proof.
  apply (HandleCommand_calls_one_handler sample_decls fault_prone_machine
           Idle_reporting_fault bms_update).
  reflexivity.
Defined.

End BatteryMoreFacts.

Module BatteryNamesFacts.
Import Stdlib.Strings.String.
Import Battery BatteryNames.

(** X9: StateToString names the four states and BS_NONE differently, and
    names every id above BS_NONE as invalid. *)
Theorem StateToString_distinct :
  (forall a b : BatteryState,
     a <= BS_NONE -> b <= BS_NONE ->
     StateToString a = StateToString b -> a = b) /\
  (forall a : BatteryState,
     BS_NONE < a -> StateToString a = "WARNING: Invalid"%string).
Proof.
  unfold BS_NONE. split.
  - intros a b Ha Hb Heq.
    destruct a as [|[|[|[|[|a]]]]]; try lia;
      destruct b as [|[|[|[|[|b]]]]]; try lia;
      try reflexivity; discriminate Heq.
  - intros a Ha.
    destruct a as [|[|[|[|[|a]]]]]; try lia. reflexivity.
Qed.

Lemma StateToString_distinct_witness :
  StateToString 6 = "WARNING: Invalid"%string /\
  (StateToString BS_FAULT = StateToString 3 -> BS_FAULT = 3).
Proof.
  split.
  - apply (proj2 StateToString_distinct). unfold BS_NONE. lia.
  - apply (proj1 StateToString_distinct); unfold BS_FAULT, BS_NONE; lia.
Defined.

End BatteryNamesFacts.

Module GatewayMoreFacts.
Import Gateway Samples.


Lemma to_uint16_idempotent (z : Z) : to_uint16 (to_uint16 z) = to_uint16 z.
Proof.
  unfold to_uint16. apply Z.mod_small.
  apply Z.mod_pos_bound. lia.
Qed.

(** An envelope the routing test accepts. *)
Lemma routed_test (source target : Node) :
  source = NODE_RCU -> target = NODE_PMB ->
  negb (Node_eqb source NODE_RCU) || negb (Node_eqb target NODE_PMB) = false.
Proof. intros -> ->. reflexivity. Qed.

(** The routing test decides between the two cases. *)
Lemma routing_cases (source target : Node) :
  (source = NODE_RCU /\ target = NODE_PMB) \/
  (source <> NODE_RCU \/ target <> NODE_PMB).
Proof.
  destruct source; try (right; left; discriminate);
    destruct target; try (right; right; discriminate).
  left. split; reflexivity.
Qed.

(** X10: a heartbeat from NODE_RCU to NODE_PMB makes exactly one call: a
    HEARTBEAT_COMMAND with sub-code RADIOHB_REQUEST sent to the watchdog
    task. *)
Theorem heartbeat_reaches_watchdog (D : Decls) (msg : ControlMessage) :
  ctl_source msg = NODE_RCU ->
  ctl_target msg = NODE_PMB ->
  ctl_body msg = body_hb ->
  HandleProtobufControlMesssage D msg tt
    = Ok (tt, tt,
          [EvSendCommand WatchdogTask_id
             {| command := HEARTBEAT_COMMAND;
                taskCommand := to_uint16 (RADIOHB_REQUEST D);
                data := None |}]).
Proof.
  intros Hs Ht Hb. unfold HandleProtobufControlMesssage.
  rewrite (routed_test _ _ Hs Ht), Hb.
  unfold SendCommand, Command_new, emit.
  rewrite to_uint16_idempotent. reflexivity.
Qed.

(** X11: the control handler halts the system exactly on a system-control
    reset request from NODE_RCU addressed to NODE_PMB; a reset request that
    fails the routing test does not halt it. *)
Theorem control_halts_iff_routed_reset (D : Decls) (msg : ControlMessage) :
  HandleProtobufControlMesssage D msg tt = AssertFailed <->
  (ctl_source msg = NODE_RCU /\ ctl_target msg = NODE_PMB /\
   exists p, ctl_body msg = body_sys_ctrl {| sys_cmd := SYS_RESET; cmd_param := p |}).
Proof.
  unfold HandleProtobufControlMesssage. split.
  - intros Hhalt.
    destruct (routing_cases (ctl_source msg) (ctl_target msg)) as [[Hs Ht] | Hbad].
    + rewrite (routed_test _ _ Hs Ht) in Hhalt.
      split; [exact Hs|]. split; [exact Ht|].
      destruct (ctl_body msg) as [| | | a | a | s | [cmd p]]; try discriminate Hhalt.
      destruct cmd; try discriminate Hhalt.
      exists p. reflexivity.
    + rewrite (GatewayFacts.misrouted_test _ _ Hbad) in Hhalt. discriminate Hhalt.
  - intros [Hs [Ht [p Hb]]].
    rewrite (routed_test _ _ Hs Ht), Hb. reflexivity.
Qed.

(** X12: whatever the envelope, the control handler and the command handler
    each make at most one call when they return, and neither ever leaves
    defined behaviour. *)
Theorem handlers_make_at_most_one_call (D : Decls) :
  (forall msg : ControlMessage,
     HandleProtobufControlMesssage D msg tt = AssertFailed \/
     exists tr, HandleProtobufControlMesssage D msg tt = Ok (tt, tt, tr) /\
                length tr <= 1) /\
  (forall msg : CommandMessage,
     exists tr, HandleProtobufCommandMessage D msg tt = Ok (tt, tt, tr) /\
                length tr <= 1).
Proof.
  split; intros msg.
  - unfold HandleProtobufControlMesssage.
    destruct (negb (Node_eqb (ctl_source msg) NODE_RCU)
              || negb (Node_eqb (ctl_target msg) NODE_PMB)).
    + right. exists []. split; [reflexivity | simpl; lia].
    + destruct (ctl_body msg) as [| | | a | a | s | [cmd p]];
        try (right; eexists; split; [reflexivity | simpl; lia]).
      destruct cmd;
        try (right; eexists; split; [reflexivity | simpl; lia]).
      left. reflexivity.
  - unfold HandleProtobufCommandMessage.
    destruct (negb (Node_eqb (cmd_source msg) NODE_RCU)
              || negb (Node_eqb (cmd_target msg) NODE_PMB)).
    + exists []. split; [reflexivity | simpl; lia].
    + destruct (pmb_command msg) as [[|code]|];
        eexists; (split; [reflexivity | simpl; lia]).
Qed.

(** X13: a command envelope produces a Command exactly when it comes from
    NODE_RCU, is addressed to NODE_PMB and carries RSC_ANY_TO_ABORT; the
    Command is then a CONTROL_ACTION with that sub-code for the flight task,
    and in every other case nothing is sent. *)
Theorem command_envelope_aborts_iff (D : Decls) (msg : CommandMessage) :
  exists tr,
    HandleProtobufCommandMessage D msg tt = Ok (tt, tt, tr) /\
    (tr = [] \/
     tr = [EvSendCommand FlightTask_id
             {| command := CONTROL_ACTION;
                taskCommand := to_uint16 (RSC_ANY_TO_ABORT D);
                data := None |}]) /\
    (tr <> [] <->
     cmd_source msg = NODE_RCU /\ cmd_target msg = NODE_PMB /\
     pmb_command msg = Some DMB_RSC_ANY_TO_ABORT).
Proof.
  unfold HandleProtobufCommandMessage.
  destruct (routing_cases (cmd_source msg) (cmd_target msg)) as [[Hs Ht] | Hbad].
  - rewrite (routed_test _ _ Hs Ht).
    destruct (pmb_command msg) as [[|code]|].
    + eexists. split; [reflexivity|]. split.
      * right. unfold SendCommand, Command_new, emit.
        rewrite to_uint16_idempotent. reflexivity.
      * split; [intros _; auto | intros _; discriminate].
    + exists []. split; [reflexivity|]. split; [left; reflexivity|].
      split; [intros H; contradiction | intros [_ [_ H]]; discriminate H].
    + exists []. split; [reflexivity|]. split; [left; reflexivity|].
      split; [intros H; contradiction | intros [_ [_ H]]; discriminate H].
  - rewrite (GatewayFacts.misrouted_test _ _ Hbad).
    exists []. split; [reflexivity|]. split; [left; reflexivity|].
    split; [intros H; contradiction|].
    intros [Hs [Ht _]]. destruct Hbad; contradiction.
Qed.

(** X14: a control envelope never commands the flight task, and each task
    it does command is fixed by the body: the watchdog task on a heartbeat,
    the flash task on a full-erase request, the telemetry task on a
    log-period change. *)
Theorem control_envelope_routing
    (D : Decls) (msg : ControlMessage) (tr : list Event) (t : TaskId) (cm : Command) :
  HandleProtobufControlMesssage D msg tt = Ok (tt, tt, tr) ->
  In (EvSendCommand t cm) tr ->
  (t = WatchdogTask_id /\ ctl_body msg = body_hb /\
   command cm = HEARTBEAT_COMMAND) \/
  (t = FlashTask_id /\ command cm = TASK_SPECIFIC_COMMAND /\
   exists p, ctl_body msg =
             body_sys_ctrl {| sys_cmd := SYS_CRITICAL_FLASH_FULL_ERASE; cmd_param := p |}) \/
  (t = TelemetryTask_id /\ command cm = TELEMETRY_CHANGE_PERIOD /\
   exists p, ctl_body msg =
             body_sys_ctrl {| sys_cmd := SYS_LOG_PERIOD_CHANGE; cmd_param := p |}).
Proof.
  unfold HandleProtobufControlMesssage.
  destruct (negb (Node_eqb (ctl_source msg) NODE_RCU)
            || negb (Node_eqb (ctl_target msg) NODE_PMB)).
  - intros Hrun Hin. injection Hrun as <-. destruct Hin.
  - destruct (ctl_body msg) as [| | | a | a | s | [cmd p]].
    + intros Hrun Hin. injection Hrun as <-. destruct Hin.
    + intros Hrun Hin. injection Hrun as <-. destruct Hin as [Hin | []].
      injection Hin as <- <-. left. auto.
    + intros Hrun Hin. injection Hrun as <-. destruct Hin as [Hin | []].
      discriminate Hin.
    + intros Hrun Hin. injection Hrun as <-. destruct Hin.
    + intros Hrun Hin. injection Hrun as <-. destruct Hin.
    + intros Hrun Hin. injection Hrun as <-. destruct Hin.
    + destruct cmd; intros Hrun Hin; try discriminate Hrun;
        injection Hrun as <-; try (destruct Hin; fail);
        destruct Hin as [Hin | []]; injection Hin as <- <-.
      * right. left. split; [reflexivity|]. split; [reflexivity|]. exists p. reflexivity.
      * right. right. split; [reflexivity|]. split; [reflexivity|]. exists p. reflexivity.
Qed.


(** X16: a period of p milliseconds requested over the link, with p at most
    0xFFFF, becomes the logging delay of the telemetry task once the task
    handles the forwarded Command; the counters of the task are untouched
    and the Command is reset once. *)
Theorem requested_period_is_applied
    (D : Decls) (msg : ControlMessage) (p : Z) (t : Tasks.TelemetryTask) :
  ctl_source msg = NODE_RCU ->
  ctl_target msg = NODE_PMB ->
  ctl_body msg = body_sys_ctrl {| sys_cmd := SYS_LOG_PERIOD_CHANGE; cmd_param := p |} ->
  (0 <= p <= 0xFFFF)%Z ->
  exists cm cm',
    HandleProtobufControlMesssage D msg tt
      = Ok (tt, tt, [EvSendCommand TelemetryTask_id cm]) /\
    Tasks.TelemetryTask_HandleCommand cm t
      = Ok (cm',
            {| Tasks.loggingDelayMs := p;
               Tasks.numNonFlashLogs_ := Tasks.numNonFlashLogs_ t;
               Tasks.numNonControlLogs_ := Tasks.numNonControlLogs_ t |},
            [EvReset]).
Proof.
  intros Hs Ht Hb Hp.
  rewrite (GatewayFacts.log_period_change_forwarded D msg p Hs Ht Hb ltac:(lia)).
  replace (p >? 65535)%Z with false
    by (symmetry; rewrite Z.gtb_ltb; apply Z.ltb_ge; lia).
  eexists; eexists. split; [reflexivity|].
  unfold Tasks.TelemetryTask_HandleCommand, Tasks.Reset. run. simpl.
  unfold to_uint16. rewrite Z.mod_small by lia. reflexivity.
Qed.

Lemma heartbeat_reaches_watchdog_witness :
  HandleProtobufControlMesssage sample_decls
    {| ctl_source := NODE_RCU; ctl_target := NODE_PMB;
       source_sequence_num := 3; ctl_body := body_hb |} tt
    = Ok (tt, tt,
          [EvSendCommand WatchdogTask_id
             {| command := HEARTBEAT_COMMAND; taskCommand := 0; data := None |}]).
Proof.
  apply (heartbeat_reaches_watchdog sample_decls
           {| ctl_source := NODE_RCU; ctl_target := NODE_PMB;
              source_sequence_num := 3; ctl_body := body_hb |}); reflexivity.
Defined.

Lemma control_envelope_routing_witness :
  (TelemetryTask_id = WatchdogTask_id /\ ctl_body (period_change 250) = body_hb /\
   command (Command_new TELEMETRY_CHANGE_PERIOD 250) = HEARTBEAT_COMMAND) \/
  (TelemetryTask_id = FlashTask_id /\
   command (Command_new TELEMETRY_CHANGE_PERIOD 250) = TASK_SPECIFIC_COMMAND /\
   exists p, ctl_body (period_change 250) =
             body_sys_ctrl {| sys_cmd := SYS_CRITICAL_FLASH_FULL_ERASE; cmd_param := p |}) \/
  (TelemetryTask_id = TelemetryTask_id /\
   command (Command_new TELEMETRY_CHANGE_PERIOD 250) = TELEMETRY_CHANGE_PERIOD /\
   exists p, ctl_body (period_change 250) =
             body_sys_ctrl {| sys_cmd := SYS_LOG_PERIOD_CHANGE; cmd_param := p |}).
Proof.
  apply (control_envelope_routing sample_decls (period_change 250)
           [EvSendCommand TelemetryTask_id (Command_new TELEMETRY_CHANGE_PERIOD 250)]).
  - reflexivity.
  - left. reflexivity.
Defined.


Lemma requested_period_is_applied_witness :
  exists cm cm',
    HandleProtobufControlMesssage sample_decls (period_change 250) tt
      = Ok (tt, tt, [EvSendCommand TelemetryTask_id cm]) /\
    Tasks.TelemetryTask_HandleCommand cm Tasks.TelemetryTask_new
      = Ok (cm',
            {| Tasks.loggingDelayMs := 250;
               Tasks.numNonFlashLogs_ := 0;
               Tasks.numNonControlLogs_ := 0 |},
            [EvReset]).
Proof.
  apply (requested_period_is_applied sample_decls (period_change 250) 250
           Tasks.TelemetryTask_new); try reflexivity.
  lia.
Defined.

End GatewayMoreFacts.

Module TasksMoreFacts.
Import Tasks TasksMore Samples.

(** ** The command loop of the telemetry task *)

(** X17: draining a queue of Commands always completes; every Command is
    reset once, every Command other than TELEMETRY_CHANGE_PERIOD is reported
    once as unsupported, the logging delay ends as the sub-code of the last
    TELEMETRY_CHANGE_PERIOD of the queue (unchanged when there is none), and
    the two log counters are untouched. *)
Theorem drain_queue_applies_last_period (queue : list Command) (t : TelemetryTask) :
  exists tr,
    drain_queue queue t
      = Ok (tt,
            {| loggingDelayMs := last_period (loggingDelayMs t) queue;
               numNonFlashLogs_ := numNonFlashLogs_ t;
               numNonControlLogs_ := numNonControlLogs_ t |},
            tr) /\
    count is_reset tr = length queue /\
    count is_print tr = length (filter (fun cm => negb (is_period_change cm)) queue).
Proof.
  revert t. induction queue as [|cm rest IH]; intros t.
  - exists []. destruct t. split; [reflexivity|]. split; reflexivity.
  - simpl drain_queue. unfold bind at 1.
    unfold TelemetryTask_HandleCommand, Reset, last_period, is_period_change.
    run. simpl fold_left. simpl filter.
    destruct (GetCommand cm); simpl;
      match goal with
      | |- context [drain_queue rest ?t1] =>
          destruct (IH t1) as [tr [Hrun [Hreset Hprint]]]; rewrite Hrun
      end;
      eexists; (split; [reflexivity|]); unfold count in *; simpl;
      rewrite Hreset, Hprint; split; reflexivity.
Qed.

(** ** Reports of the flight task *)

Section Reports.

Variable D : Decls.
Variable RocketSM : Type.
Variable GetRocketStateAsProto : RocketSM -> nat.



End Reports.


(** X19: a request to transmit the state is answered by the flight task
    itself: one state report is sent, the Command is reset once, and the
    rocket state machine is neither called nor replaced. *)
Theorem transmit_request_bypasses_state_machine
    (D : Decls) (RocketSM : Type)
    (RocketSM_HandleCommand : Command -> M RocketSM Command)
    (GetRocketStateAsProto : RocketSM -> nat)
    (cm : Command) (ft : FlightTask RocketSM) (rsm : RocketSM) :
  rsm_ ft = Some rsm ->
  GetCommand cm = REQUEST_COMMAND ->
  GetTaskCommand cm = FT_REQUEST_TRANSMIT_STATE D ->
  exists ft' kind,
    FlightTask_HandleCommand D RocketSM_HandleCommand GetRocketStateAsProto cm ft
      = Ok (Command_Reset cm, ft',
            [EvSendProtobufMessage
               (state_report kind (GetRocketStateAsProto rsm)) MSG_CONTROL;
             EvReset]) /\
    rsm_ ft' = Some rsm.
Proof.
  intros Hrsm Hkind Hcode.
  unfold FlightTask_HandleCommand, is_transmit_state_request, Reset.
  rewrite Hkind, Hcode, Z.eqb_refl. simpl andb. cbv iota.
  unfold SendRocketState, state_report. run. rewrite Hrsm.
  destruct (firstStateSent_ ft <? FLIGHT_TASK_BOOTUP_TELE_CYCLES D)%Z;
    eexists; eexists; (split; [reflexivity|]);
    first [reflexivity | exact Hrsm].
Qed.

(** X20: whatever the persisted record holds, and whether or not it can be
    read, Run hands the RocketSM constructor a state of
    [RS_PRELAUNCH, RS_NONE) and asks for its entry hook, provided RS_ABORT
    itself lies in that range. *)
Theorem Run_startup_state_is_legal
    (D : Decls) (RocketSM : Type) (RocketSM_new : Z -> bool -> RocketSM)
    (stored : option SystemState) (ft : FlightTask RocketSM) :
  (RS_PRELAUNCH D <= RS_ABORT D < RS_NONE D)%Z ->
  exists s,
    Run_startup D RocketSM_new stored ft
      = Ok (tt,
            {| rsm_ := Some (RocketSM_new s true);
               firstStateSent_ := firstStateSent_ ft |},
            [EvNewRocketSM s true]) /\
    (RS_PRELAUNCH D <= s < RS_NONE D)%Z.
Proof.
  intros Habort. unfold Run_startup, new_RocketSM. run.
  destruct stored as [sysState|].
  - destruct (Z.geb_spec (rocketState sysState) (RS_NONE D)) as [Hhigh | Hhigh];
      destruct (Z.ltb_spec (rocketState sysState) (RS_PRELAUNCH D)) as [Hlow | Hlow];
      simpl orb; cbv iota;
      eexists; (split; [reflexivity|]); simpl; lia.
  - eexists. split; [reflexivity|]. exact Habort.
Qed.


Lemma transmit_request_bypasses_state_machine_witness :
  exists ft' kind,
    FlightTask_HandleCommand sample_decls battery_as_rsm (fun _ => 0)
      (Command_new REQUEST_COMMAND 0) sample_flight_task
      = Ok (Command_Reset (Command_new REQUEST_COMMAND 0), ft',
            [EvSendProtobufMessage (state_report kind 0) MSG_CONTROL; EvReset]) /\
    rsm_ ft' = Some idle_machine.
Proof.
  apply (transmit_request_bypasses_state_machine sample_decls Battery.BatterySM
           battery_as_rsm (fun _ => 0) (Command_new REQUEST_COMMAND 0)
           sample_flight_task idle_machine); reflexivity.
Defined.

Lemma Run_startup_state_is_legal_witness :
  exists s,
    Run_startup sample_decls (fun (s : Z) (enter : bool) => s)
      (Some {| rocketState := -1 |}) FlightTask_new
      = Ok (tt, {| rsm_ := Some s; firstStateSent_ := 0 |}, [EvNewRocketSM s true]) /\
    (0 <= s < 11)%Z.
Proof.
  apply (Run_startup_state_is_legal sample_decls Z (fun s _ => s)
           (Some {| rocketState := -1 |}) FlightTask_new).
  simpl. lia.
Defined.

End TasksMoreFacts.

Module DebugFacts.
Import Debug.

(** ** Arrays and C strings *)

Lemma store_in_range (buf : list byte) (i : nat) (b : byte) :
  i < length buf ->
  store buf i b = Some (firstn i buf ++ b :: skipn (S i) buf).
Proof.
  intros Hlt. unfold store. apply Nat.ltb_lt in Hlt. rewrite Hlt. reflexivity.
Qed.

Lemma stored_length (buf : list byte) (i : nat) (b : byte) :
  i < length buf ->
  length (firstn i buf ++ b :: skipn (S i) buf) = length buf.
Proof.
  intros Hlt. rewrite length_app, length_firstn.
  change (length (b :: skipn (S i) buf)) with (S (length (skipn (S i) buf))).
  rewrite length_skipn. lia.
Qed.

Lemma stored_prefix (buf : list byte) (i : nat) (b : byte) :
  i < length buf ->
  firstn (S i) (firstn i buf ++ b :: skipn (S i) buf) = firstn i buf ++ [b].
Proof.
  intros Hlt.
  pose proof (firstn_app_2 1 (firstn i buf) (b :: skipn (S i) buf)) as E.
  rewrite length_firstn, Nat.min_l in E by lia.
  replace (i + 1) with (S i) in E by lia. exact E.
Qed.

Lemma c_str_prefix (msg rest : list byte) :
  Forall (fun b => b <> x00) msg ->
  c_str (msg ++ x00 :: rest) = Some msg.
Proof.
  induction msg as [|b msg IH]; intros Hall.
  - reflexivity.
  - inversion Hall as [|b' msg' Hb Hrest]; subst. simpl.
    destruct (Byte.eqb b x00) eqn:E.
    + apply Byte.byte_dec_bl in E. contradiction.
    + rewrite (IH Hrest). reflexivity.
Qed.

Lemma bytes_eqb_eq (a b : list byte) : bytes_eqb a b = true <-> a = b.
Proof.
  revert b. induction a as [|x a IH]; intros [|y b]; simpl;
    try (split; [discriminate | discriminate]).
  - split; reflexivity.
  - rewrite andb_true_iff, IH. split.
    + intros [Hx ->]. apply Byte.byte_dec_bl in Hx. subst. reflexivity.
    + intros H. injection H as -> ->. split; [apply Byte.byte_dec_lb|]; reflexivity.
Qed.

Lemma bytes_eqb_neq (a b : list byte) : a <> b -> bytes_eqb a b = false.
Proof.
  intros Hne. destruct (bytes_eqb a b) eqn:E; [|reflexivity].
  apply bytes_eqb_eq in E. contradiction.
Qed.

Section Receive.

Variable D : DebugDecls.

(** ** One interrupt *)

Lemma InterruptRxData_step (sendOk : bool) (t : DebugTask) :
  rx_ok D t ->
  exists t' calls,
    InterruptRxData D sendOk t = Ok (t', calls) /\
    rx_ok D t' /\
    length (debugBuffer t') = length (debugBuffer t) /\
    length (filter is_rearm calls) = 1.
Proof.
  intros [Hlen Hidx]. unfold InterruptRxData.
  destruct (isDebugMsgReady t) eqn:Hready; simpl negb; cbv iota.
  - exists t, [CallReceiveIT]. split; [reflexivity|].
    split; [split; [exact Hlen | rewrite Hready; discriminate]|].
    split; reflexivity.
  - specialize (Hidx eq_refl).
    destruct (Byte.eqb (debugRxChar t) x0d
              || (debugMsgIdx t =? DEBUG_RX_BUFFER_SZ_BYTES D)) eqn:Hend.
    + rewrite store_in_range by lia.
      destruct sendOk; eexists; eexists; (split; [reflexivity|]);
        (split; [split; simpl; [rewrite stored_length by lia; exact Hlen|]|]);
        try (intros _; lia); try discriminate;
        (split; [simpl; apply stored_length; lia | reflexivity]).
    + apply orb_false_iff in Hend. destruct Hend as [_ Hfull].
      apply Nat.eqb_neq in Hfull.
      rewrite store_in_range by lia.
      eexists; eexists. split; [reflexivity|].
      split; [split; simpl; [rewrite stored_length by lia; exact Hlen | intros _; lia]|].
      split; [simpl; apply stored_length; lia | reflexivity].
Qed.

(** ** Collecting a message *)

Lemma receive_byte_collects (sendOk : bool) (t : DebugTask) (acc : list byte) (c : byte) :
  collecting D t acc ->
  length acc < DEBUG_RX_BUFFER_SZ_BYTES D ->
  c <> x0d ->
  exists t',
    receive_byte D sendOk c t = Ok (t', [CallReceiveIT]) /\
    collecting D t' (acc ++ [c]).
Proof.
  intros [Hready [Hidx [Hpre Hlen]]] Hroom Hc.
  unfold receive_byte, InterruptRxData.
  cbn [isDebugMsgReady debugRxChar debugMsgIdx debugBuffer].
  rewrite Hready. simpl negb. cbv iota.
  assert (Byte.eqb c x0d = false) as ->.
  { destruct (Byte.eqb c x0d) eqn:E; [|reflexivity].
    apply Byte.byte_dec_bl in E. contradiction. }
  assert ((debugMsgIdx t =? DEBUG_RX_BUFFER_SZ_BYTES D) = false) as ->.
  { apply Nat.eqb_neq. lia. }
  simpl orb. cbv iota.
  rewrite store_in_range by lia.
  eexists. split; [reflexivity|].
  split; [reflexivity|].
  split; [simpl; rewrite Hidx, length_app; simpl; lia|].
  split.
  - simpl. rewrite length_app. simpl.
    replace (length acc + 1) with (S (length acc)) by lia.
    rewrite Hidx. rewrite stored_prefix by lia. rewrite Hpre. reflexivity.
  - simpl. rewrite stored_length by lia. exact Hlen.
Qed.

Lemma receive_bytes_collects (sendOk : bool) (bytes : list byte)
    (t : DebugTask) (acc : list byte) :
  collecting D t acc ->
  Forall (fun b => b <> x0d) bytes ->
  length acc + length bytes <= DEBUG_RX_BUFFER_SZ_BYTES D ->
  exists t',
    receive_bytes D sendOk bytes t = Ok (t', repeat CallReceiveIT (length bytes)) /\
    collecting D t' (acc ++ bytes).
Proof.
  revert t acc. induction bytes as [|c rest IH]; intros t acc Hcol Hall Hroom.
  - exists t. split; [reflexivity|]. rewrite app_nil_r. exact Hcol.
  - inversion Hall as [|c' rest' Hc Hrest]; subst. simpl in Hroom.
    destruct (receive_byte_collects sendOk t acc c Hcol ltac:(lia) Hc)
      as [t1 [Hstep Hcol1]].
    destruct (IH t1 (acc ++ [c]) Hcol1 Hrest) as [t2 [Hrun Hcol2]].
    { rewrite length_app. simpl. lia. }
    exists t2. simpl receive_bytes. rewrite Hstep, Hrun.
    split; [reflexivity|].
    rewrite <- app_assoc in Hcol2. exact Hcol2.
Qed.

(** A run of bytes splits at any point. *)
Lemma receive_bytes_app (sendOk : bool) (first rest : list byte) (t : DebugTask) :
  receive_bytes D sendOk (first ++ rest) t =
  match receive_bytes D sendOk first t with
  | Ok (t1, calls1) =>
      match receive_bytes D sendOk rest t1 with
      | Ok (t2, calls2) => Ok (t2, calls1 ++ calls2)
      | AssertFailed => AssertFailed
      | Undefined => Undefined
      end
  | AssertFailed => AssertFailed
  | Undefined => Undefined
  end.
Proof.
  revert t. induction first as [|c first IH]; intros t.
  - simpl. destruct (receive_bytes D sendOk rest t) as [[t2 calls2]| |]; reflexivity.
  - simpl. destruct (receive_byte D sendOk c t) as [[t1 calls1]| |]; try reflexivity.
    rewrite IH.
    destruct (receive_bytes D sendOk first t1) as [[t2 calls2]| |]; try reflexivity.
    destruct (receive_bytes D sendOk rest t2) as [[t3 calls3]| |]; try reflexivity.
    rewrite app_assoc. reflexivity.
Qed.

Lemma receive_byte_terminates (sendOk : bool) (t : DebugTask) (acc : list byte) (c : byte) :
  collecting D t acc ->
  length acc <= DEBUG_RX_BUFFER_SZ_BYTES D ->
  c = x0d \/ length acc = DEBUG_RX_BUFFER_SZ_BYTES D ->
  exists buf,
    receive_byte D sendOk c t
      = Ok ((if sendOk
             then {| debugBuffer := buf; debugMsgIdx := S (length acc);
                     isDebugMsgReady := true; debugRxChar := c |}
             else {| debugBuffer := buf; debugMsgIdx := 0;
                     isDebugMsgReady := false; debugRxChar := c |}),
            [CallSendFromISR (Command_new DATA_COMMAND (EVENT_DEBUG_RX_COMPLETE D));
             CallReceiveIT]) /\
    firstn (S (length acc)) buf = acc ++ [x00] /\
    length buf = length (debugBuffer t).
Proof.
  intros [Hready [Hidx [Hpre Hlen]]] Hroom Hend.
  unfold receive_byte, InterruptRxData.
  cbn [isDebugMsgReady debugRxChar debugMsgIdx debugBuffer].
  rewrite Hready. simpl negb. cbv iota.
  assert (Byte.eqb c x0d || (debugMsgIdx t =? DEBUG_RX_BUFFER_SZ_BYTES D) = true) as ->.
  { destruct Hend as [-> | Hfull].
    - reflexivity.
    - rewrite Hidx, Hfull, Nat.eqb_refl. apply orb_true_r. }
  rewrite store_in_range by lia. rewrite Hidx.
  eexists. split; [reflexivity|]. split.
  - rewrite stored_prefix by lia. rewrite Hpre. reflexivity.
  - apply stored_length. lia.
Qed.

End Receive.

(** A run of bytes keeps the receive state and the size of the array. *)
Lemma receive_bytes_stays_in_range
    (D : DebugDecls) (sendOk : bool) (bytes : list byte) (t : DebugTask) :
  rx_ok D t ->
  (forall t' calls,
     receive_bytes D sendOk bytes t = Ok (t', calls) ->
     length (debugBuffer t') = length (debugBuffer t)) /\
  exists t' calls,
    receive_bytes D sendOk bytes t = Ok (t', calls) /\
    rx_ok D t' /\
    length (filter is_rearm calls) = length bytes.
Proof.
  revert t. induction bytes as [|c rest IH]; intros t Hok.
  - split.
    + intros t' calls Hrun. injection Hrun as <- _. reflexivity.
    + exists t, []. split; [reflexivity|]. split; [exact Hok | reflexivity].
  - simpl receive_bytes. unfold receive_byte.
    destruct (InterruptRxData_step D sendOk
                {| debugBuffer := debugBuffer t; debugMsgIdx := debugMsgIdx t;
                   isDebugMsgReady := isDebugMsgReady t; debugRxChar := c |})
      as [t1 [calls1 [Hstep [Hok1 [Hlen1 Harm1]]]]].
    { exact Hok. }
    destruct (IH t1 Hok1) as [Hsame [t2 [calls2 [Hrun [Hok2 Harm2]]]]].
    rewrite Hstep, Hrun. split.
    + intros t' calls Heq. injection Heq as <- _.
      rewrite (Hsame t2 calls2 Hrun). exact Hlen1.
    + exists t2, (calls1 ++ calls2).
      split; [reflexivity|]. split; [exact Hok2|].
      rewrite filter_app, length_app, Harm1, Harm2. reflexivity.
Qed.


(** The state a typed line leaves the task in. *)
Lemma receive_line
    (D : DebugDecls) (line : list byte) (c : byte) (t : DebugTask) :
  rx_ok D t ->
  isDebugMsgReady t = false ->
  debugMsgIdx t = 0 ->
  Forall (fun b => b <> x0d) line ->
  Forall (fun b => b <> x00) line ->
  length line <= DEBUG_RX_BUFFER_SZ_BYTES D ->
  c = x0d \/ length line = DEBUG_RX_BUFFER_SZ_BYTES D ->
  exists t',
    receive_bytes D true (line ++ [c]) t
      = Ok (t',
            repeat CallReceiveIT (length line) ++
            [CallSendFromISR (Command_new DATA_COMMAND (EVENT_DEBUG_RX_COMPLETE D));
             CallReceiveIT]) /\
    isDebugMsgReady t' = true /\
    c_str (debugBuffer t') = Some line /\
    length (debugBuffer t') = length (debugBuffer t).
Proof.
  intros [Hlen _] Hready Hidx Hcr Hnul Hroom Hend.
  assert (Hcol : collecting D t []).
  { split; [exact Hready|]. split; [exact Hidx|]. split; [reflexivity | exact Hlen]. }
  destruct (receive_bytes_collects D true line t [] Hcol Hcr) as [t1 [Hrun Hcol1]].
  { simpl. exact Hroom. }
  simpl app in Hcol1.
  destruct (receive_byte_terminates D true t1 line c Hcol1 Hroom Hend)
    as [buf [Hstep [Hpre Hbuf]]].
  destruct (receive_bytes_stays_in_range D true line t) as [Hsame _].
  { split; [exact Hlen | intros _; lia]. }
  eexists. split; [|split; [|split]].
  - rewrite receive_bytes_app, Hrun. simpl receive_bytes. rewrite Hstep.
    rewrite app_nil_r. reflexivity.
  - reflexivity.
  - simpl. rewrite <- (firstn_skipn (S (length line)) buf), Hpre, <- app_assoc.
    simpl. apply c_str_prefix. exact Hnul.
  - simpl. rewrite Hbuf. exact (Hsame t1 _ Hrun).
Qed.

(** X22: a line typed at an idle task is delivered as typed: after the
    characters of the line (no CR, no NUL, at most DEBUG_RX_BUFFER_SZ_BYTES of
    them) and one more byte that is a CR, or any byte at all when the line
    fills the buffer, a message is pending, the task has been notified
    once with DATA_COMMAND / EVENT_DEBUG_RX_COMPLETE, and the C string in the
    array is the line. *)
Theorem line_is_delivered
    (D : DebugDecls) (line : list byte) (c : byte) (t : DebugTask) :
  rx_ok D t ->
  isDebugMsgReady t = false ->
  debugMsgIdx t = 0 ->
  Forall (fun b => b <> x0d) line ->
  Forall (fun b => b <> x00) line ->
  length line <= DEBUG_RX_BUFFER_SZ_BYTES D ->
  c = x0d \/ length line = DEBUG_RX_BUFFER_SZ_BYTES D ->
  exists t',
    receive_bytes D true (line ++ [c]) t
      = Ok (t',
            repeat CallReceiveIT (length line) ++
            [CallSendFromISR (Command_new DATA_COMMAND (EVENT_DEBUG_RX_COMPLETE D));
             CallReceiveIT]) /\
    isDebugMsgReady t' = true /\
    c_str (debugBuffer t') = Some line.
Proof.
  intros Hok Hready Hidx Hcr Hnul Hroom Hend.
  destruct (receive_line D line c t Hok Hready Hidx Hcr Hnul Hroom Hend)
    as [t' [Hrun [Hpending [Hstr _]]]].
  exists t'. auto.
Qed.

(** X23: bytes that arrive while a message is pending are dropped: the
    array, the index and the pending flag stay as they are, and the
    interrupt is re-armed after each byte. *)
Theorem pending_message_shields_buffer
    (D : DebugDecls) (sendOk : bool) (bytes : list byte) (t : DebugTask) :
  isDebugMsgReady t = true ->
  exists t',
    receive_bytes D sendOk bytes t = Ok (t', repeat CallReceiveIT (length bytes)) /\
    debugBuffer t' = debugBuffer t /\
    debugMsgIdx t' = debugMsgIdx t /\
    isDebugMsgReady t' = true.
Proof.
  revert t. induction bytes as [|c rest IH]; intros t Hready.
  - exists t. split; [reflexivity|]. split; [reflexivity|]. split; [reflexivity | exact Hready].
  - simpl receive_bytes. unfold receive_byte, InterruptRxData.
    cbn [isDebugMsgReady]. rewrite Hready. simpl negb. cbv iota.
    destruct (IH {| debugBuffer := debugBuffer t; debugMsgIdx := debugMsgIdx t;
                    isDebugMsgReady := true; debugRxChar := c |} eq_refl)
      as [t' [Hrun [Hbuf [Hidx Hr]]]].
    rewrite Hrun. exists t'. split; [reflexivity|]. auto.
Qed.

(** X24: when the notification cannot be queued, the message is given up
    and the task is idle again: the end of a message with SendFromISR
    failing leaves the index at 0 and no message pending, in a receive state
    from which the next line is collected as usual. *)
Theorem failed_notification_restarts
    (D : DebugDecls) (t : DebugTask) (acc : list byte) (c : byte) :
  collecting D t acc ->
  length acc <= DEBUG_RX_BUFFER_SZ_BYTES D ->
  c = x0d \/ length acc = DEBUG_RX_BUFFER_SZ_BYTES D ->
  exists t',
    receive_byte D false c t
      = Ok (t',
            [CallSendFromISR (Command_new DATA_COMMAND (EVENT_DEBUG_RX_COMPLETE D));
             CallReceiveIT]) /\
    collecting D t' [] /\
    rx_ok D t'.
Proof.
  intros Hcol Hroom Hend.
  destruct (receive_byte_terminates D false t acc c Hcol Hroom Hend)
    as [buf [Hstep [_ Hbuf]]].
  destruct Hcol as [_ [_ [_ Hlen]]].
  eexists. split; [exact Hstep|]. split.
  - split; [reflexivity|]. split; [reflexivity|]. split; [reflexivity|].
    simpl. rewrite Hbuf. exact Hlen.
  - split; simpl; [rewrite Hbuf; exact Hlen | intros _; lia].
Qed.

(** The ways HandleDebugMessage ends on a message. *)
Lemma HandleDebugMessage_cases (t : DebugTask) (msg : list byte) :
  c_str (debugBuffer t) = Some msg ->
  (HandleDebugMessage t = AssertFailed <-> msg = DebugWords.sysreset) /\
  (msg <> DebugWords.sysreset ->
   exists calls,
     HandleDebugMessage t
       = Ok ({| debugBuffer := debugBuffer t; debugMsgIdx := 0;
                isDebugMsgReady := false; debugRxChar := debugRxChar t |}, calls) /\
     In CallPrint calls /\
     (In CallLed1On calls <-> msg = DebugWords.blinkled)).
Proof.
  intros Hmsg. unfold HandleDebugMessage. rewrite Hmsg.
  destruct (bytes_eqb msg DebugWords.sysreset) eqn:Hreset.
  - apply bytes_eqb_eq in Hreset. split.
    + split; [intros _; exact Hreset | reflexivity].
    + intros Hne. contradiction.
  - assert (Hne : msg <> DebugWords.sysreset).
    { intros Heq. apply bytes_eqb_eq in Heq. rewrite Heq in Hreset. discriminate. }
    split.
    + split; [|intros Heq; contradiction].
      destruct (bytes_eqb msg DebugWords.sysinfo);
        [|destruct (bytes_eqb msg DebugWords.blinkled)]; discriminate.
    + intros _.
      destruct (bytes_eqb msg DebugWords.sysinfo) eqn:Hinfo.
      * apply bytes_eqb_eq in Hinfo.
        eexists. split; [reflexivity|]. split; [left; reflexivity|].
        split.
        -- intros [H | [H | [H | [H | []]]]]; discriminate H.
        -- intros Hled. rewrite Hinfo in Hled. discriminate Hled.
      * destruct (bytes_eqb msg DebugWords.blinkled) eqn:Hled.
        -- apply bytes_eqb_eq in Hled.
           eexists. split; [reflexivity|]. split; [left; reflexivity|].
           split; [intros _; exact Hled | intros _; right; left; reflexivity].
        -- eexists. split; [reflexivity|]. split; [left; reflexivity|].
           split.
           ++ intros [H | []]. discriminate H.
           ++ intros Heq. apply bytes_eqb_eq in Heq. rewrite Heq in Hled. discriminate.
Qed.

(** X25: HandleDebugMessage halts the system exactly when the message is
    sysreset; on any other message it prints, clears the index and the
    pending flag, leaves the array alone, and switches LED1 on exactly when
    the message is blinkled. *)
Theorem HandleDebugMessage_outcomes (t : DebugTask) (msg : list byte) :
  c_str (debugBuffer t) = Some msg ->
  (HandleDebugMessage t = AssertFailed <-> msg = DebugWords.sysreset) /\
  (msg <> DebugWords.sysreset ->
   exists calls,
     HandleDebugMessage t
       = Ok ({| debugBuffer := debugBuffer t; debugMsgIdx := 0;
                isDebugMsgReady := false; debugRxChar := debugRxChar t |}, calls) /\
     In CallPrint calls /\
     (In CallLed1On calls <-> msg = DebugWords.blinkled)).
Proof. exact (HandleDebugMessage_cases t msg). Qed.

(** X26: from the keyboard to the handler: after a line and its CR are
    received by an idle task, one notification has been queued; the round
    of Run that takes it halts the system when the line is sysreset, and
    otherwise handles the line, resets the Command, switches LED1 on exactly
    when the line is blinkled, and leaves the task idle and ready for the
    next line. *)
Theorem typed_line_is_handled (D : DebugDecls) (line : list byte) (t : DebugTask) :
  rx_ok D t ->
  isDebugMsgReady t = false ->
  debugMsgIdx t = 0 ->
  Forall (fun b => b <> x0d) line ->
  Forall (fun b => b <> x00) line ->
  length line <= DEBUG_RX_BUFFER_SZ_BYTES D ->
  (0 <= EVENT_DEBUG_RX_COMPLETE D <= 65535)%Z ->
  exists t1 calls1,
    receive_bytes D true (line ++ [x0d]) t = Ok (t1, calls1) /\
    In (CallSendFromISR (Command_new DATA_COMMAND (EVENT_DEBUG_RX_COMPLETE D))) calls1 /\
    (line = DebugWords.sysreset ->
     Run_round D (Command_new DATA_COMMAND (EVENT_DEBUG_RX_COMPLETE D)) t1
       = AssertFailed) /\
    (line <> DebugWords.sysreset ->
     exists t2 calls2,
       Run_round D (Command_new DATA_COMMAND (EVENT_DEBUG_RX_COMPLETE D)) t1
         = Ok (Command_Reset (Command_new DATA_COMMAND (EVENT_DEBUG_RX_COMPLETE D)),
               t2, calls2 ++ [CallReset]) /\
       collecting D t2 [] /\
       rx_ok D t2 /\
       (In CallLed1On calls2 <-> line = DebugWords.blinkled)).
Proof.
  intros Hok Hready Hidx Hcr Hnul Hroom Hevent.
  destruct (receive_line D line x0d t Hok Hready Hidx Hcr Hnul Hroom)
    as [t1 [Hrun [Hpending [Hstr Hlen]]]]; [left; reflexivity|].
  exists t1. eexists. split; [exact Hrun|]. split.
  { apply in_or_app. right. left. reflexivity. }
  assert (Htest : GLOBAL_COMMANDS_eqb
                    (GetCommand (Command_new DATA_COMMAND (EVENT_DEBUG_RX_COMPLETE D)))
                    DATA_COMMAND
                  && (GetTaskCommand (Command_new DATA_COMMAND (EVENT_DEBUG_RX_COMPLETE D))
                      =? EVENT_DEBUG_RX_COMPLETE D)%Z = true).
  { unfold Command_new, GetCommand, GetTaskCommand, to_uint16. simpl.
    rewrite Z.mod_small by lia. apply Z.eqb_refl. }
  destruct (HandleDebugMessage_cases t1 line Hstr) as [Hhalt Hother].
  split.
  - intros Hreset. unfold Run_round. rewrite Htest.
    rewrite (proj2 Hhalt Hreset). reflexivity.
  - intros Hne. destruct (Hother Hne) as [calls [Hhandle [_ Hled]]].
    unfold Run_round. rewrite Htest, Hhandle.
    eexists; eexists. split; [reflexivity|].
    split; [|split; [|exact Hled]].
    + split; [reflexivity|]. split; [reflexivity|]. split; [reflexivity|].
      simpl. rewrite Hlen. exact (proj1 Hok).
    + split; simpl; [rewrite Hlen; exact (proj1 Hok) | intros _; lia].
Qed.

(** ** Concrete runs *)

Import DebugSamples.

Lemma fresh_debug_task_ok : rx_ok sample_debug_decls fresh_debug_task.
Proof. split; simpl; [lia | intros _; lia]. Qed.

Lemma blinkled_typed :
  Forall (fun b => b <> x0d) DebugWords.blinkled /\
  Forall (fun b => b <> x00) DebugWords.blinkled.
Proof. split; repeat constructor; discriminate. Qed.


Lemma line_is_delivered_witness :
  exists t',
    receive_bytes sample_debug_decls true (DebugWords.blinkled ++ [x0d]) fresh_debug_task
      = Ok (t',
            repeat CallReceiveIT (length DebugWords.blinkled) ++
            [CallSendFromISR (Command_new DATA_COMMAND 0); CallReceiveIT]) /\
    isDebugMsgReady t' = true /\
    c_str (debugBuffer t') = Some DebugWords.blinkled.
Proof.
  apply (line_is_delivered sample_debug_decls DebugWords.blinkled x0d fresh_debug_task).
  - exact fresh_debug_task_ok.
  - reflexivity.
  - reflexivity.
  - exact (proj1 blinkled_typed).
  - exact (proj2 blinkled_typed).
  - simpl. lia.
  - left. reflexivity.
Defined.

Lemma pending_message_shields_buffer_witness :
  exists t',
    receive_bytes sample_debug_decls true [x73; x0d; x79] blinkled_pending
      = Ok (t', repeat CallReceiveIT 3) /\
    debugBuffer t' = debugBuffer blinkled_pending /\
    debugMsgIdx t' = debugMsgIdx blinkled_pending /\
    isDebugMsgReady t' = true.
Proof.
  apply (pending_message_shields_buffer sample_debug_decls true [x73; x0d; x79]
           blinkled_pending).
  reflexivity.
Defined.

Lemma failed_notification_restarts_witness :
  exists t',
    receive_byte sample_debug_decls false x0d fresh_debug_task
      = Ok (t', [CallSendFromISR (Command_new DATA_COMMAND 0); CallReceiveIT]) /\
    collecting sample_debug_decls t' [] /\
    rx_ok sample_debug_decls t'.
Proof.
  apply (failed_notification_restarts sample_debug_decls fresh_debug_task [] x0d).
  - split; [reflexivity|]. split; [reflexivity|]. split; [reflexivity|]. simpl. lia.
  - simpl. lia.
  - left. reflexivity.
Defined.

Lemma HandleDebugMessage_outcomes_witness :
  (HandleDebugMessage blinkled_pending = AssertFailed <->
   DebugWords.blinkled = DebugWords.sysreset) /\
  (DebugWords.blinkled <> DebugWords.sysreset ->
   exists calls,
     HandleDebugMessage blinkled_pending
       = Ok ({| debugBuffer := debugBuffer blinkled_pending; debugMsgIdx := 0;
                isDebugMsgReady := false;
                debugRxChar := debugRxChar blinkled_pending |}, calls) /\
     In CallPrint calls /\
     (In CallLed1On calls <-> DebugWords.blinkled = DebugWords.blinkled)).
Proof.
  apply (HandleDebugMessage_outcomes blinkled_pending DebugWords.blinkled).
  reflexivity.
Defined.

Lemma typed_line_is_handled_witness :
  exists t1 calls1,
    receive_bytes sample_debug_decls true (DebugWords.blinkled ++ [x0d]) fresh_debug_task
      = Ok (t1, calls1) /\
    In (CallSendFromISR (Command_new DATA_COMMAND 0)) calls1 /\
    (DebugWords.blinkled = DebugWords.sysreset ->
     Run_round sample_debug_decls (Command_new DATA_COMMAND 0) t1 = AssertFailed) /\
    (DebugWords.blinkled <> DebugWords.sysreset ->
     exists t2 calls2,
       Run_round sample_debug_decls (Command_new DATA_COMMAND 0) t1
         = Ok (Command_Reset (Command_new DATA_COMMAND 0), t2, calls2 ++ [CallReset]) /\
       collecting sample_debug_decls t2 [] /\
       rx_ok sample_debug_decls t2 /\
       (In CallLed1On calls2 <-> DebugWords.blinkled = DebugWords.blinkled)).
Proof.
  apply (typed_line_is_handled sample_debug_decls DebugWords.blinkled fresh_debug_task).
  - exact fresh_debug_task_ok.
  - reflexivity.
  - reflexivity.
  - exact (proj1 blinkled_typed).
  - exact (proj2 blinkled_typed).
  - simpl. lia.
  - simpl. lia.
Defined.

End DebugFacts.
